(** * User repository and voting service of the user-management REST API

    A shallow embedding of [internal/repositories/user_repo.go] over a small
    model of the gorm session it talks to, followed by the properties of the
    design document that concern it.  The service-level [Vote] operation and
    the vote repository are not among the sources (only the service tests
    are); they are modelled from the design document and marked as such. *)

From Stdlib Require Import ZArith List String Bool Lia.
From Stdlib Require DecimalString.
Import ListNotations.
Open Scope string_scope.
Open Scope list_scope.
Open Scope Z_scope.

(** ** Machine integers: Go's [int] on a 64-bit platform *)

Module goint.

Definition MinInt : Z := - 2 ^ 63.
Definition MaxInt : Z := 2 ^ 63 - 1.

Definition in_range (z : Z) : Prop := MinInt <= z <= MaxInt.

(** Two's-complement wrap-around of an exact result. *)
Definition wrap (z : Z) : Z := (z + 2 ^ 63) mod 2 ^ 64 - 2 ^ 63.

Definition sub (a b : Z) : Z := wrap (a - b).
Definition mul (a b : Z) : Z := wrap (a * b).

End goint.

(** ** [time.Time] and [time.Duration] *)

Module time.

(** An instant, counted in nanoseconds from the zero instant [time.Time{}]. *)
Definition Time : Type := Z.

Definition Zero : Time := 0.

Definition IsZero (t : Time) : bool := t =? 0.

Definition Minute : Z := 60 * 1000000000.
Definition Hour : Z := 60 * Minute.

End time.

(** ** Package [gorm]: errors and statement results *)

Module gormerr.

(** [gorm.ErrRecordNotFound], and every other error a statement can end
    with (driver, connection, context, scan or preload errors), carried
    with its text. *)
Inductive Error : Type :=
| ErrRecordNotFound
| ErrOther (msg : string).

Definition text (e : Error) : string :=
  match e with
  | ErrRecordNotFound => "record not found"
  | ErrOther msg => msg
  end.

Definition is_record_not_found (e : Error) : bool :=
  match e with
  | ErrRecordNotFound => true
  | ErrOther _ => false
  end.

End gormerr.

(** ** Package [apperrors] *)

Module apperrors.

Inductive ErrCode : Type :=
| CodeNoRecordFound
| CodeInsertionFailed
| CodeDeletionFailed
| CodeVoteCooldown
| CodeLoggerInit.

(** Modelled from the spec: package [apperrors] is not among the sources.
    Section 7 of the design document describes its errors as tagged kinds
    carrying a machine-readable code and a human message; [AppendMessage]
    keeps the code and extends the message. *)
Record AppError : Type := { Code : ErrCode; Message : string }.

Definition AppendMessage (e : AppError) (msg : string) : AppError :=
  {| Code := Code e; Message := (Message e ++ msg)%string |}.

Definition NoRecordFoundErr : AppError :=
  {| Code := CodeNoRecordFound; Message := "" |}.
Definition InsertionFailedErr : AppError :=
  {| Code := CodeInsertionFailed; Message := "" |}.
Definition DeletionFailedErr : AppError :=
  {| Code := CodeDeletionFailed; Message := "" |}.
Definition VoteCooldownErr : AppError :=
  {| Code := CodeVoteCooldown; Message := "" |}.

End apperrors.

(** Go's [error] interface, as far as this code inhabits it. *)
Inductive error : Type :=
| GormErr (e : gormerr.Error)
| AppErr (e : apperrors.AppError).

Definition error_text (e : error) : string :=
  match e with
  | GormErr g => gormerr.text g
  | AppErr a => apperrors.Message a
  end.

(** ** Package [models] *)

Module models.

(** The fields of [models.User] that the repository reads or writes.
    The identifiers are unsigned in the source; [RoleID] is only ever
    tested with [> 0].  A NULL [deleted_at] column scans as the zero
    instant. *)
Record User : Type := {
  ID : Z;
  Email : string;
  FirstName : string;
  LastName : string;
  Password : string;
  RoleID : Z;
  VoteUpdatedAt : time.Time;
  DeletedAt : time.Time
}.

Definition zeroUser : User :=
  {| ID := 0; Email := ""; FirstName := ""; LastName := ""; Password := "";
     RoleID := 0; VoteUpdatedAt := time.Zero; DeletedAt := time.Zero |}.

Definition set_Email (u : User) (v : string) : User :=
  {| ID := ID u; Email := v; FirstName := FirstName u;
     LastName := LastName u; Password := Password u; RoleID := RoleID u;
     VoteUpdatedAt := VoteUpdatedAt u; DeletedAt := DeletedAt u |}.

Definition set_FirstName (u : User) (v : string) : User :=
  {| ID := ID u; Email := Email u; FirstName := v;
     LastName := LastName u; Password := Password u; RoleID := RoleID u;
     VoteUpdatedAt := VoteUpdatedAt u; DeletedAt := DeletedAt u |}.

Definition set_LastName (u : User) (v : string) : User :=
  {| ID := ID u; Email := Email u; FirstName := FirstName u;
     LastName := v; Password := Password u; RoleID := RoleID u;
     VoteUpdatedAt := VoteUpdatedAt u; DeletedAt := DeletedAt u |}.

Definition set_Password (u : User) (v : string) : User :=
  {| ID := ID u; Email := Email u; FirstName := FirstName u;
     LastName := LastName u; Password := v; RoleID := RoleID u;
     VoteUpdatedAt := VoteUpdatedAt u; DeletedAt := DeletedAt u |}.

Definition set_RoleID (u : User) (v : Z) : User :=
  {| ID := ID u; Email := Email u; FirstName := FirstName u;
     LastName := LastName u; Password := Password u; RoleID := v;
     VoteUpdatedAt := VoteUpdatedAt u; DeletedAt := DeletedAt u |}.

Definition set_VoteUpdatedAt (u : User) (v : time.Time) : User :=
  {| ID := ID u; Email := Email u; FirstName := FirstName u;
     LastName := LastName u; Password := Password u; RoleID := RoleID u;
     VoteUpdatedAt := v; DeletedAt := DeletedAt u |}.

Definition set_DeletedAt (u : User) (v : time.Time) : User :=
  {| ID := ID u; Email := Email u; FirstName := FirstName u;
     LastName := LastName u; Password := Password u; RoleID := RoleID u;
     VoteUpdatedAt := VoteUpdatedAt u; DeletedAt := v |}.

Definition set_ID (u : User) (v : Z) : User :=
  {| ID := v; Email := Email u; FirstName := FirstName u;
     LastName := LastName u; Password := Password u; RoleID := RoleID u;
     VoteUpdatedAt := VoteUpdatedAt u; DeletedAt := DeletedAt u |}.

(** [models.Vote], with the fields the service tests populate. *)
Record Vote : Type := {
  Vote_ID : Z;
  Vote_UserID : Z;
  Vote_ProfileID : Z;
  Vote_Value : Z
}.

Definition set_Vote_ID (v : Vote) (i : Z) : Vote :=
  {| Vote_ID := i; Vote_UserID := Vote_UserID v;
     Vote_ProfileID := Vote_ProfileID v; Vote_Value := Vote_Value v |}.

Definition set_Vote_Value (v : Vote) (x : Z) : Vote :=
  {| Vote_ID := Vote_ID v; Vote_UserID := Vote_UserID v;
     Vote_ProfileID := Vote_ProfileID v; Vote_Value := x |}.

End models.

Import models.

(** ** A gorm session over the [users] table *)

Module gorm.

(** What the storage does with the next statements: serve them, fail
    them before any row is read (connection, context or syntax errors),
    or fail them after the matching row was read (a scan or a preload
    error). *)
Inductive Health : Type :=
| Healthy
| StatementFails (e : gormerr.Error)
| ScanFails (e : gormerr.Error).

Definition storage_error (h : Health) : option gormerr.Error :=
  match h with
  | Healthy => None
  | StatementFails e | ScanFails e => Some e
  end.

(** The table in the storage's natural order, and the storage's health. *)
Record DB : Type := { users : list User; health : Health }.

(** The same table under another health: what a later statement of a call
    finds when the health of the storage changes between two statements. *)
Definition at_health (h : Health) (db : DB) : DB :=
  {| users := users db; health := h |}.

(** The two fields of [*gorm.DB] that the repository inspects after a
    statement. *)
Record Result : Type := { Error : option gormerr.Error; RowsAffected : Z }.

Definition ok (n : Z) : Result := {| Error := None; RowsAffected := n |}.
Definition failed (e : gormerr.Error) (n : Z) : Result :=
  {| Error := Some e; RowsAffected := n |}.

(** [ORDER BY id LIMIT 1] over the rows that satisfy the condition. *)
Fixpoint first_by_pk (cond : User -> bool) (rows : list User) : option User :=
  match rows with
  | [] => None
  | r :: rest =>
      let best := first_by_pk cond rest in
      if cond r then
        match best with
        | Some b => if ID b <? ID r then Some b else Some r
        | None => Some r
        end
      else best
  end.

(** [db.First(&dest, cond...)]: the destination is filled only when a row
    was scanned without error.  A statement that fails leaves
    [RowsAffected] at its initial 0; the counter is raised when a row is
    scanned, before scan and preload errors are recorded. *)
Definition First (db : DB) (cond : User -> bool) : Result * User :=
  match health db with
  | StatementFails e => (failed e 0, zeroUser)
  | ScanFails e =>
      match first_by_pk cond (users db) with
      | Some _ => (failed e 1, zeroUser)
      | None => (failed gormerr.ErrRecordNotFound 0, zeroUser)
      end
  | Healthy =>
      match first_by_pk cond (users db) with
      | Some r => (ok 1, r)
      | None => (failed gormerr.ErrRecordNotFound 0, zeroUser)
      end
  end.

(** [Limit(n)] and [Offset(n)]: a LIMIT clause is emitted for a
    non-negative argument ([LIMIT 0] returns no row), an OFFSET clause for
    a positive one. *)
Definition limit {A} (n : Z) (l : list A) : list A :=
  if 0 <=? n then firstn (Z.to_nat n) l else l.
Definition offset {A} (n : Z) (l : list A) : list A :=
  if 0 <? n then skipn (Z.to_nat n) l else l.

(** [db.Limit(l).Offset(o).Find(&dest, cond)]: no ordering clause, so the
    rows come in the storage's natural order. *)
Definition Find (db : DB) (cond : User -> bool) (l o : Z)
  : Result * list User :=
  match health db with
  | StatementFails e => (failed e 0, [])
  | ScanFails e =>
      let rows := limit l (offset o (filter cond (users db))) in
      (failed e (Z.of_nat (List.length rows)), [])
  | Healthy =>
      let rows := limit l (offset o (filter cond (users db))) in
      (ok (Z.of_nat (List.length rows)), rows)
  end.

(** [db.Model(&User{}).Where(cond).Count(&n)]. *)
Definition Count (db : DB) (cond : User -> bool) : Result * Z :=
  match health db with
  | Healthy =>
      let n := Z.of_nat (List.length (filter cond (users db))) in (ok 1, n)
  | StatementFails e => (failed e 0, 0)
  | ScanFails e => (failed e 1, 0)
  end.

Definition has_pk (i : Z) (rows : list User) : bool :=
  existsb (fun r => ID r =? i) rows.

Definition fresh_pk (rows : list User) : Z :=
  1 + fold_right (fun r m => Z.max (ID r) m) 0 rows.

Definition replace_pk (u : User) (rows : list User) : list User :=
  map (fun r => if ID r =? ID u then u else r) rows.

(** [db.Save(&u)]: all columns of the row with [u]'s primary key are
    written, the row keeping its place; a zero key, or a key that no row
    has, inserts instead.  The saved value (with its key) is handed back as
    the destination. *)
Definition Save (db : DB) (u : User) : Result * User * DB :=
  match health db with
  | StatementFails e => (failed e 0, u, db)
  | _ =>
      if (ID u =? 0) then
        let u' := {| ID := fresh_pk (users db); Email := Email u;
                     FirstName := FirstName u; LastName := LastName u;
                     Password := Password u; RoleID := RoleID u;
                     VoteUpdatedAt := VoteUpdatedAt u;
                     DeletedAt := DeletedAt u |} in
        (ok 1, u', {| users := users db ++ [u']; health := health db |})
      else if has_pk (ID u) (users db) then
        (ok 1, u, {| users := replace_pk u (users db); health := health db |})
      else
        (ok 1, u, {| users := users db ++ [u]; health := health db |})
  end.

(** [db.Create(&u)]: an insert.  A zero key is assigned by the storage and
    written back into the value; a key that a row already has violates the
    primary key. *)
Definition Create (db : DB) (u : User) : Result * User * DB :=
  match health db with
  | StatementFails e => (failed e 0, u, db)
  | _ =>
      if ID u =? 0 then
        let u' := set_ID u (fresh_pk (users db)) in
        (ok 1, u', {| users := users db ++ [u']; health := health db |})
      else if has_pk (ID u) (users db) then
        (failed (gormerr.ErrOther "duplicate key value violates unique constraint")
                0, u, db)
      else
        (ok 1, u, {| users := users db ++ [u]; health := health db |})
  end.

(** The [Error] field of the session [repo.db.WithContext(ctx)].  A
    statement run on a session hands its outcome back in a new [*gorm.DB]
    and leaves the session's own fields as they were. *)
Definition session_Error : option gormerr.Error := None.

End gorm.

Import gorm.

(** ** [UserRepo]: package [repositories] *)

Section UserRepo.

(** How the storage compares the [id] column with a textual parameter in
    [id = ?]; the comparison belongs to the SQL dialect, not to the
    repository. *)
Variable sql_id_eq : string -> Z -> bool.

(** [deleted_at IS NULL OR deleted_at = time.Time{}]. *)
Definition not_deleted (u : User) : bool := time.IsZero (DeletedAt u).

(** [id = ? AND (deleted_at IS NULL OR deleted_at = ?)]. *)
Definition id_and_not_deleted (userID : string) (u : User) : bool :=
  sql_id_eq userID (ID u) && not_deleted u.

(** [email = ?]. *)
Definition email_is (email : string) (u : User) : bool :=
  (Email u =? email)%string.

(** [email = ? AND (deleted_at IS NULL OR deleted_at = ?)]. *)
Definition email_and_not_deleted (email : string) (u : User) : bool :=
  email_is email u && not_deleted u.

(** The source discards what [tx.Create(user)] returns and then reads
    [tx.Error], the session's field. *)
Definition CreateUser (db : DB) (user : User)
  : option User * option error * DB :=
  let '(_, user', db') := Create db user in
  match session_Error with
  | Some e =>
      (None, Some (AppErr (apperrors.AppendMessage apperrors.InsertionFailedErr
                             (gormerr.text e))), db')
  | None => (Some user', None, db')
  end.

Definition GetUser (db : DB) (userID : string) : option User * option error :=
  let '(result, user) := First db (id_and_not_deleted userID) in
  match Error result with
  | Some e =>
      if RowsAffected result =? 0 then
        (None, Some (AppErr (apperrors.AppendMessage apperrors.NoRecordFoundErr
                               "No user found with the given ID.")))
      else
        (None, Some (AppErr (apperrors.AppendMessage apperrors.DeletionFailedErr
                               (gormerr.text e))))
  | None => (Some user, None)
  end.

Definition fetchUser (tx : DB) (userID : string) : option User * option error :=
  let '(result, user) := First tx (id_and_not_deleted userID) in
  match Error result with
  | Some e =>
      if RowsAffected result =? 0 then
        (None, Some (AppErr (apperrors.AppendMessage apperrors.NoRecordFoundErr
                               "No user found with the given ID.")))
      else
        (None, Some (AppErr (apperrors.AppendMessage apperrors.DeletionFailedErr
                               (gormerr.text e))))
  | None => (Some user, None)
  end.

(** The five unconditional copies that follow the email step. *)
Definition copyOtherFields (user updatedData : User) : User :=
  let user :=
    if negb (FirstName updatedData =? "")%string
    then set_FirstName user (FirstName updatedData) else user in
  let user :=
    if negb (LastName updatedData =? "")%string
    then set_LastName user (LastName updatedData) else user in
  let user :=
    if negb (Password updatedData =? "")%string
    then set_Password user (Password updatedData) else user in
  let user :=
    if negb (time.IsZero (DeletedAt updatedData))
    then set_DeletedAt user (DeletedAt updatedData) else user in
  let user :=
    if RoleID updatedData >? 0
    then set_RoleID user (RoleID updatedData) else user in
  user.

(** [user] is a pointer in the source: the first component is the object
    it points to when the function returns. *)
Definition applyUserUpdates (tx : DB) (user updatedData : User)
  : User * option error :=
  if negb (Email updatedData =? "")%string
     && negb (Email updatedData =? Email user)%string
  then
    let '(result, _) := First tx (email_is (Email updatedData)) in
    if RowsAffected result >? 0 then
      (user, Some (AppErr (apperrors.AppendMessage apperrors.DeletionFailedErr
                             "The email is already occupied by another user.")))
    else
      (copyOtherFields (set_Email user (Email updatedData)) updatedData, None)
  else
    (copyOtherFields user updatedData, None).

Definition saveUser (tx : DB) (user : User) : User * option error * DB :=
  let '(result, user', tx') := Save tx user in
  match Error result with
  | Some e =>
      (user', Some (AppErr (apperrors.AppendMessage apperrors.DeletionFailedErr
                              (gormerr.text e))), tx')
  | None => (user', None, tx')
  end.

(** [fetchUser] never returns a nil user with a nil error, so the second
    case below is never taken. *)
Definition UpdateUser (db : DB) (userID : string) (updatedData : User)
  : option User * option error * DB :=
  match fetchUser db userID with
  | (_, Some err) => (None, Some err, db)
  | (None, None) => (None, None, db)
  | (Some user, None) =>
      match applyUserUpdates db user updatedData with
      | (_, Some err) => (None, Some err, db)
      | (user, None) =>
          match saveUser db user with
          | (_, Some err, db') => (None, Some err, db')
          | (user, None, db') => (Some user, None, db')
          end
      end
  end.

(** [UpdateUser] on a storage whose health changes during the call: the
    three statements run one after the other on the same session, the fetch
    on [db] as it is, the uniqueness query when the health is [hq], the
    save when it is [hs].  With [hq] and [hs] the health of [db] this is
    [UpdateUser]. *)
Definition UpdateUserAcross (hq hs : Health) (db : DB) (userID : string)
    (updatedData : User) : option User * option error * DB :=
  match fetchUser db userID with
  | (_, Some err) => (None, Some err, db)
  | (None, None) => (None, None, db)
  | (Some user, None) =>
      match applyUserUpdates (at_health hq db) user updatedData with
      | (_, Some err) => (None, Some err, db)
      | (user, None) =>
          match saveUser (at_health hs db) user with
          | (_, Some err, db') => (None, Some err, db')
          | (user, None, db') => (Some user, None, db')
          end
      end
  end.

(** [now] is the value of [time.Now()] at the call. *)
Definition DeleteUser (db : DB) (now : time.Time) (userID : string)
  : option User * option error * DB :=
  UpdateUser db userID (set_DeletedAt zeroUser now).

Definition listOffset (page pageSize : Z) : Z :=
  goint.mul (goint.sub page 1) pageSize.

Definition ListUsers (db : DB) (page pageSize : Z)
  : list User * option error :=
  let offset := listOffset page pageSize in
  let '(result, users) := Find db not_deleted pageSize offset in
  match Error result with
  | Some e =>
      ([], Some (AppErr (apperrors.AppendMessage apperrors.DeletionFailedErr
                           (gormerr.text e))))
  | None => (users, None)
  end.

Definition CountUsers (db : DB) : Z * option error :=
  let '(result, count) := Count db not_deleted in
  match Error result with
  | Some e =>
      (0, Some (AppErr (apperrors.AppendMessage apperrors.DeletionFailedErr
                          (gormerr.text e))))
  | None => (count, None)
  end.

Definition GetUserByEmail (db : DB) (email : string)
  : option User * option error :=
  let '(tx, user) := First db (email_and_not_deleted email) in
  match Error tx with
  | Some e =>
      if RowsAffected tx =? 0 then (None, None)
      else (None, Some (GormErr e))
  | None => (Some user, None)
  end.

Definition GetUserByID (db : DB) (userID : Z) : option User * option error :=
  let '(result, user) := First db (fun r => ID r =? userID) in
  match Error result with
  | Some e =>
      if gormerr.is_record_not_found e then
        (None, Some (AppErr (apperrors.AppendMessage apperrors.NoRecordFoundErr
                               "User not found.")))
      else (None, Some (GormErr e))
  | None => (Some user, None)
  end.

End UserRepo.

(** ** The voting subsystem *)

Module voting.

(** What reaches the storage during a service call, in order. *)
Inductive Op : Type :=
| OpGetUserByID (userID : Z)
| OpGetVote (userID profileID : Z)
| OpInsertVote (v : Vote)
| OpUpdateVote (v : Vote)
| OpTouchVoter (userID : Z) (at_ : time.Time).

Definition is_write (o : Op) : bool :=
  match o with
  | OpInsertVote _ | OpUpdateVote _ | OpTouchVoter _ _ => true
  | OpGetUserByID _ | OpGetVote _ _ => false
  end.

Definition is_vote_lookup (o : Op) : bool :=
  match o with
  | OpGetVote _ _ => true
  | _ => false
  end.

Definition is_touch_of (userID : Z) (o : Op) : bool :=
  match o with
  | OpTouchVoter u _ => u =? userID
  | _ => false
  end.

(** How often the log refreshes the [VoteUpdatedAt] of a user. *)
Definition touches (userID : Z) (l : list Op) : nat :=
  List.length (filter (is_touch_of userID) l).

(** Both tables behind the two repositories, and the log of operations. *)
Record Store : Type := { db : DB; votes : list Vote; ops : list Op }.

(** A computation over the store. *)
Definition M (A : Type) : Type := Store -> A * Store.

Definition ret {A} (a : A) : M A := fun st => (a, st).
Definition bind {A B} (m : M A) (k : A -> M B) : M B :=
  fun st => let '(a, st') := m st in k a st'.
Definition logged (o : Op) (st : Store) : Store :=
  {| db := db st; votes := votes st; ops := ops st ++ [o] |}.
Definition log (o : Op) : M unit := fun st => (tt, logged o st).

Notation "x <- m ;; k" := (bind m (fun x => k))
  (at level 61, m at next level, right associativity).
Notation "m ;;; k" := (bind m (fun _ => k))
  (at level 61, right associativity).

(** The user repository of the sources, seen from the service. *)
Definition userRepo_GetUserByID (userID : Z) : M (option User * option error) :=
  log (OpGetUserByID userID) ;;;
  fun st => (GetUserByID (db st) userID, st).

Definition same_pair (userID profileID : Z) (v : Vote) : bool :=
  (Vote_UserID v =? userID) && (Vote_ProfileID v =? profileID).

Definition fresh_vote_id (vs : list Vote) : Z :=
  1 + fold_right (fun v m => Z.max (Vote_ID v) m) 0 vs.

Definition touch (userID : Z) (now : time.Time) (d : DB) : DB :=
  {| users := map (fun r => if ID r =? userID
                            then set_VoteUpdatedAt r now else r) (users d);
     health := health d |}.

(** Modelled from the spec: the vote repository is not among the sources.
    Section 6 gives its contract: [GetVote] is the point lookup of the
    vote of a (user, profile) pair, with a nil vote and a nil error on
    absence. *)
Definition voteRepo_GetVote (userID profileID : Z)
  : M (option Vote * option error) :=
  log (OpGetVote userID profileID) ;;;
  fun st =>
    match storage_error (health (db st)) with
    | Some e => ((None, Some (GormErr e)), st)
    | None => ((find (same_pair userID profileID) (votes st), None), st)
    end.

(** Modelled from the spec: the vote repository is not among the sources.
    [CreateVote] inserts the record and returns it with the identity the
    storage assigned.  Section 4.2, step 4 requires the voter's
    [VoteUpdatedAt] to be refreshed once per successful vote, by the
    service or by the storage; the service tests allow [Vote] no
    repository call besides [GetUserByID], [GetVote] and
    [CreateVote]/[UpdateVote], so the refresh is part of the write. *)
Definition voteRepo_CreateVote (now : time.Time) (v : Vote)
  : M (option Vote * option error) :=
  fun st =>
    match storage_error (health (db st)) with
    | Some e => ((None, Some (GormErr e)), st)
    | None =>
        let v' := set_Vote_ID v (fresh_vote_id (votes st)) in
        ((Some v', None),
         {| db := touch (Vote_UserID v) now (db st);
            votes := votes st ++ [v'];
            ops := ops st ++ [OpInsertVote v';
                              OpTouchVoter (Vote_UserID v) now] |})
    end.

(** Modelled from the spec: the vote repository is not among the sources.
    [UpdateVote] writes the record over the stored one of the same
    identity, and refreshes the voter's [VoteUpdatedAt] like
    [CreateVote]. *)
Definition voteRepo_UpdateVote (now : time.Time) (v : Vote)
  : M (option Vote * option error) :=
  fun st =>
    match storage_error (health (db st)) with
    | Some e => ((None, Some (GormErr e)), st)
    | None =>
        ((Some v, None),
         {| db := touch (Vote_UserID v) now (db st);
            votes := map (fun w => if Vote_ID w =? Vote_ID v then v else w)
                         (votes st);
            ops := ops st ++ [OpUpdateVote v;
                              OpTouchVoter (Vote_UserID v) now] |})
    end.

Definition insertionFailed (e : error) : option error :=
  Some (AppErr (apperrors.AppendMessage apperrors.InsertionFailedErr
                  (error_text e))).

(** Modelled from the spec: the service's [Vote] is not among the sources
    (its tests are).  Section 4.2: load the voter, any failure being an
    [InsertionFailed]; fail with [VoteCooldown] when less than the
    cooldown window of one hour has elapsed since [VoteUpdatedAt], before
    anything else happens; then look the vote of the pair up and either
    create it or update the value of the existing record, returning the
    record's identity. *)
Definition Vote (now : time.Time) (vote : Vote) : M (Z * option error) :=
  r <- userRepo_GetUserByID (Vote_UserID vote) ;;
  match r with
  | (_, Some err) => ret (0, insertionFailed err)
  | (None, None) => ret (0, insertionFailed (GormErr gormerr.ErrRecordNotFound))
  | (Some user, None) =>
      if now - VoteUpdatedAt user <? time.Hour then
        ret (0, Some (AppErr apperrors.VoteCooldownErr))
      else
        g <- voteRepo_GetVote (Vote_UserID vote) (Vote_ProfileID vote) ;;
        match g with
        | (_, Some err) => ret (0, insertionFailed err)
        | (None, None) =>
            c <- voteRepo_CreateVote now vote ;;
            match c with
            | (Some created, None) => ret (Vote_ID created, None)
            | (_, Some err) => ret (0, insertionFailed err)
            | (None, None) => ret (0, None)
            end
        | (Some existingVote, None) =>
            let existingVote := set_Vote_Value existingVote (Vote_Value vote) in
            u <- voteRepo_UpdateVote now existingVote ;;
            match u with
            | (Some updated, None) => ret (Vote_ID updated, None)
            | (_, Some err) => ret (0, insertionFailed err)
            | (None, None) => ret (0, None)
            end
        end
  end.

End voting.

(** ** A concrete dialect and concrete tables, used to run the code *)

(** PostgreSQL reads the parameter of [id = ?] as a decimal number; a text
    that is not one (the empty text included) matches no row. *)
Definition pg_id_eq (userID : string) (id : Z) : bool :=
  match DecimalString.NilZero.uint_of_string userID with
  | Some d => Z.of_uint d =? id
  | None => false
  end.

Definition mkUser (id : Z) (email first : string) (deleted : time.Time) : User :=
  {| ID := id; Email := email; FirstName := first; LastName := "";
     Password := "secret"; RoleID := 1; VoteUpdatedAt := time.Zero;
     DeletedAt := deleted |}.

Definition ann : User := mkUser 1 "ann@example.com" "Ann" 0.
Definition bob : User := mkUser 2 "bob@example.com" "Bob" 0.
Definition cid : User := mkUser 3 "cid@example.com" "Cid" 1700000000.

Definition db3 : DB := {| users := [ann; bob; cid]; health := Healthy |}.

Definition t0 : time.Time := 1000 * time.Hour.

Definition voter : User :=
  {| ID := 1; Email := "voter@example.com"; FirstName := "Vi"; LastName := "";
     Password := "secret"; RoleID := 1; VoteUpdatedAt := t0; DeletedAt := 0 |}.

Definition existingVote : Vote :=
  {| Vote_ID := 10; Vote_UserID := 1; Vote_ProfileID := 2; Vote_Value := 0 |}.

Definition testVote : Vote :=
  {| Vote_ID := 0; Vote_UserID := 1; Vote_ProfileID := 2; Vote_Value := 1 |}.

Definition otherVote : Vote :=
  {| Vote_ID := 0; Vote_UserID := 1; Vote_ProfileID := 3; Vote_Value := -1 |}.

Definition store0 : voting.Store :=
  {| voting.db := {| users := [voter; bob]; health := Healthy |};
     voting.votes := [existingVote];
     voting.ops := [] |}.

Definition cooldownErr : option error :=
  Some (AppErr apperrors.VoteCooldownErr).

Definition taken : User :=
  {| ID := 0; Email := "bob@example.com"; FirstName := ""; LastName := "Doe";
     Password := ""; RoleID := 0; VoteUpdatedAt := 0; DeletedAt := 0 |}.

Definition reuse : User :=
  {| ID := 0; Email := "cid@example.com"; FirstName := ""; LastName := "";
     Password := ""; RoleID := 0; VoteUpdatedAt := 0; DeletedAt := 0 |}.

(** The rows of page [page], [pageSize] rows to a page. *)
Definition pageOf (page pageSize : Z) (rows : list User) : list User :=
  firstn (Z.to_nat pageSize) (skipn (Z.to_nat ((page - 1) * pageSize)) rows).

Definition deletionFailed (e : gormerr.Error) : option error :=
  Some (AppErr (apperrors.AppendMessage apperrors.DeletionFailedErr
                  (gormerr.text e))).

Definition noUserWithID : option error :=
  Some (AppErr (apperrors.AppendMessage apperrors.NoRecordFoundErr
                  "No user found with the given ID.")).

Definition rename : User :=
  {| ID := 0; Email := "anna@example.com"; FirstName := "Anna"; LastName := "";
     Password := ""; RoleID := 0; VoteUpdatedAt := 0; DeletedAt := 0 |}.

Definition dan : User := mkUser 0 "dan@example.com" "Dan" 0.

Definition userNotFound : option error :=
  Some (AppErr (apperrors.AppendMessage apperrors.NoRecordFoundErr
                  "User not found.")).

(** The non-deleted rows of a table, in its order. *)
Definition liveRows (db : DB) : list User := filter not_deleted (users db).

(** Field-wise merge of a patch value over a stored value. *)
Definition orElse (new old : string) : string :=
  if (new =? "")%string then old else new.

(** Pages 1 to [n] of [ListUsers], one after the other. *)
Definition pagesUpTo (db : DB) (n : nat) (pageSize : Z) : list User :=
  flat_map (fun p => fst (ListUsers db (Z.of_nat p) pageSize)) (seq 1 n).

Definition bobOld : User := mkUser 4 "bob@example.com" "Bob" 1600000000.

Definition db3dup : DB := {| users := [ann; bob; bobOld]; health := Healthy |}.

Definition timedOut : gormerr.Error :=
  gormerr.ErrOther "context deadline exceeded".

Definition annAsBob : User :=
  {| ID := 1; Email := "bob@example.com"; FirstName := "Ann";
     LastName := "Doe"; Password := "secret"; RoleID := 1;
     VoteUpdatedAt := time.Zero; DeletedAt := 0 |}.
Definition annAsCid : User := mkUser 1 "cid@example.com" "Ann" 0.

Definition emailOccupied : option error :=
  Some (AppErr (apperrors.AppendMessage apperrors.DeletionFailedErr
                  "The email is already occupied by another user.")).

(** * Properties *)

(** ** The model of the session *)

Section FirstByPk.

Variable cond : User -> bool.

Lemma first_by_pk_some (rows : list User) (u : User) :
  first_by_pk cond rows = Some u -> In u rows /\ cond u = true.
Proof.
  revert u; induction rows as [|r rest IH]; intros u; simpl.
  - discriminate.
  - destruct (cond r) eqn:Hr.
    + destruct (first_by_pk cond rest) as [b|] eqn:Hb.
      * destruct (ID b <? ID r); intros [= <-].
        -- destruct (IH b eq_refl); auto.
        -- auto.
      * intros [= <-]; auto.
    + intros H; destruct (IH u H); auto.
Qed.

Lemma first_by_pk_none (rows : list User) :
  first_by_pk cond rows = None <->
  (forall r, In r rows -> cond r = false).
Proof.
  induction rows as [|r rest IH]; simpl.
  - split; [intros _ r [] | reflexivity].
  - destruct (cond r) eqn:Hr.
    + split.
      * destruct (first_by_pk cond rest) as [b|];
          [destruct (ID b <? ID r)|]; discriminate.
      * intros H. specialize (H r (or_introl eq_refl)). congruence.
    + rewrite IH. split.
      * intros H x [<-|Hx]; auto.
      * intros H x Hx; auto.
Qed.

Lemma first_by_pk_found (rows : list User) (r : User) :
  In r rows -> cond r = true -> exists u, first_by_pk cond rows = Some u.
Proof.
  intros Hin Hc.
  destruct (first_by_pk cond rows) as [u|] eqn:E; [eauto|].
  rewrite first_by_pk_none in E. rewrite (E r Hin) in Hc. discriminate.
Qed.

End FirstByPk.

(** A first row that comes back without error was read from a healthy
    storage and satisfies the condition. *)
Lemma First_ok (db : DB) (cond : User -> bool) (n : Z) (u : User) :
  First db cond = (ok n, u) ->
  health db = Healthy /\ first_by_pk cond (users db) = Some u.
Proof.
  unfold First.
  destruct (health db); [|discriminate|];
    destruct (first_by_pk cond (users db)); try discriminate.
  intros [= _ <-]; auto.
Qed.

Lemma First_healthy_found (db : DB) (cond : User -> bool) (u : User) :
  health db = Healthy -> first_by_pk cond (users db) = Some u ->
  First db cond = (ok 1, u).
Proof. unfold First; intros -> ->; reflexivity. Qed.

Lemma First_no_match (db : DB) (cond : User -> bool) :
  first_by_pk cond (users db) = None ->
  exists e, First db cond = (failed e 0, zeroUser).
Proof. unfold First; intros ->; destruct (health db); eauto. Qed.

(** ** Lookups by identifier *)

Section Lookups.

Variable sql_id_eq : string -> Z -> bool.

Lemma GetUser_no_live_match (db : DB) (userID : string) :
  (forall r, In r (users db) -> sql_id_eq userID (ID r) = true ->
             not_deleted r = false) ->
  GetUser sql_id_eq db userID = (None, noUserWithID).
Proof.
  intros H. unfold GetUser.
  destruct (First_no_match db (id_and_not_deleted sql_id_eq userID)) as [e ->].
  - apply first_by_pk_none. intros r Hr. unfold id_and_not_deleted.
    destruct (sql_id_eq userID (ID r)) eqn:E; [|reflexivity].
    simpl. auto.
  - reflexivity.
Qed.

Lemma GetUser_fetchUser (db : DB) (userID : string) :
  fetchUser sql_id_eq db userID = GetUser sql_id_eq db userID.
Proof. reflexivity. Qed.

Lemma GetUser_some (db : DB) (userID : string) (u : User) (e : option error) :
  GetUser sql_id_eq db userID = (Some u, e) ->
  health db = Healthy /\
  first_by_pk (id_and_not_deleted sql_id_eq userID) (users db) = Some u.
Proof.
  unfold GetUser.
  destruct (First db (id_and_not_deleted sql_id_eq userID)) as [[err n] u'] eqn:E.
  destruct err as [g|]; simpl.
  - destruct (n =? 0); discriminate.
  - intros [= <- _]. eapply First_ok; eauto.
Qed.

End Lookups.

(** C7: [GetUser] answers [NoRecordFound] whenever every row that the
    identifier designates is soft-deleted, which covers the identifier of a
    soft-deleted user and an identifier that no row has; and a user that
    [GetUser] returns, for any identifier, is never soft-deleted. *)
Theorem GetUser_hides_soft_deleted (sql_id_eq : string -> Z -> bool) (db : DB)
    (userID : string)
    (Hgone : forall U, In U (users db) -> sql_id_eq userID (ID U) = true ->
                       time.IsZero (DeletedAt U) = false) :
  GetUser sql_id_eq db userID = (None, noUserWithID) /\
  (forall anyID u e, GetUser sql_id_eq db anyID = (Some u, e) ->
     time.IsZero (DeletedAt u) = true).
Proof.
  split.
  - apply GetUser_no_live_match. exact Hgone.
  - intros anyID u e H. apply GetUser_some in H as [_ H].
    apply first_by_pk_some in H as [_ H].
    unfold id_and_not_deleted in H. apply andb_true_iff in H as [_ H].
    exact H.
Qed.

Lemma GetUser_hides_soft_deleted_witness :
  (forall U, In U (users db3) -> pg_id_eq "3" (ID U) = true ->
             time.IsZero (DeletedAt U) = false) /\
  GetUser pg_id_eq db3 "3" = (None, noUserWithID) /\
  (forall anyID u e, GetUser pg_id_eq db3 anyID = (Some u, e) ->
     time.IsZero (DeletedAt u) = true).
Proof.
  assert (H : forall U, In U (users db3) -> pg_id_eq "3" (ID U) = true ->
                        time.IsZero (DeletedAt U) = false).
  { intros U [<-|[<-|[<-|[]]]]; vm_compute; congruence. }
  split; [exact H|].
  exact (GetUser_hides_soft_deleted pg_id_eq db3 "3" H).
Defined.

(** C8: when the statement behind [GetUserByEmail] fails, whatever the
    error, the repository reports neither a user nor an error: the failure
    is taken for an absence, because a failed statement affects no row. *)
Theorem GetUserByEmail_swallows_statement_failure
    (rows : list User) (e : gormerr.Error) (email : string) :
  GetUserByEmail {| users := rows; health := StatementFails e |} email
  = (None, None).
Proof. reflexivity. Qed.

(** What the neighbouring branches do: an absent email is no error, an
    error that arrives with a scanned row is returned, and [GetUserByID]
    tells a missing record from a failed statement by the error itself. *)
Lemma GetUserByEmail_absent (db : DB) (email : string) :
  (forall r, In r (users db) -> Email r = email -> not_deleted r = false) ->
  GetUserByEmail db email = (None, None).
Proof.
  intros H. unfold GetUserByEmail.
  destruct (First_no_match db (email_and_not_deleted email)) as [e ->];
    [|reflexivity].
  apply first_by_pk_none. intros r Hr. unfold email_and_not_deleted, email_is.
  destruct (String.eqb_spec (Email r) email) as [E|E]; [|reflexivity].
  simpl. auto.
Qed.

Lemma GetUserByEmail_scan_failure (rows : list User) (e : gormerr.Error)
    (email : string) (r : User) :
  In r rows -> Email r = email -> not_deleted r = true ->
  GetUserByEmail {| users := rows; health := ScanFails e |} email
  = (None, Some (GormErr e)).
Proof.
  intros Hr He Hl. unfold GetUserByEmail, First. simpl.
  destruct (first_by_pk_found (email_and_not_deleted email) rows r Hr) as [u ->].
  - unfold email_and_not_deleted, email_is. rewrite He, String.eqb_refl. exact Hl.
  - reflexivity.
Qed.

Lemma GetUserByID_statement_failure (rows : list User) (msg : string) (userID : Z) :
  GetUserByID {| users := rows; health := StatementFails (gormerr.ErrOther msg) |}
              userID
  = (None, Some (GormErr (gormerr.ErrOther msg))).
Proof. reflexivity. Qed.

(** ** Partial update *)

Lemma fetchUser_some (sql_id_eq : string -> Z -> bool) (db : DB)
    (userID : string) (user : User) (e : option error) :
  fetchUser sql_id_eq db userID = (Some user, e) ->
  health db = Healthy /\ In user (users db) /\
  sql_id_eq userID (ID user) = true /\ not_deleted user = true /\ e = None.
Proof.
  intros H. assert (e = None) as ->.
  { revert H. unfold fetchUser.
    destruct (First db _) as [[[g|] n] u']; simpl;
      [destruct (n =? 0)|]; congruence. }
  rewrite GetUser_fetchUser in H. apply GetUser_some in H as [Hh H].
  apply first_by_pk_some in H as [Hin H].
  apply andb_true_iff in H as [H1 H2]. auto.
Qed.

Lemma applyUserUpdates_conflict (db : DB) (user patch other : User) :
  health db = Healthy ->
  Email patch <> "" -> Email patch <> Email user ->
  In other (users db) -> Email other = Email patch ->
  applyUserUpdates db user patch = (user, emailOccupied).
Proof.
  intros Hh Hne Hdiff Hin Hmail. unfold applyUserUpdates.
  apply String.eqb_neq in Hne, Hdiff. rewrite Hne, Hdiff. simpl.
  destruct (first_by_pk_found (email_is (Email patch)) (users db) other Hin)
    as [u Hu].
  { unfold email_is. rewrite Hmail. apply String.eqb_refl. }
  rewrite (First_healthy_found db _ u Hh Hu). reflexivity.
Qed.

Lemma UpdateUser_conflict (sql_id_eq : string -> Z -> bool) (db : DB)
    (userID : string) (user patch other : User) :
  fetchUser sql_id_eq db userID = (Some user, None) ->
  Email patch <> "" -> Email patch <> Email user ->
  In other (users db) -> Email other = Email patch ->
  applyUserUpdates db user patch = (user, emailOccupied) /\
  UpdateUser sql_id_eq db userID patch = (None, emailOccupied, db).
Proof.
  intros Hf Hne Hdiff Hin Hmail.
  destruct (fetchUser_some _ _ _ _ _ Hf) as [Hh _].
  pose proof (applyUserUpdates_conflict db user patch other Hh Hne Hdiff Hin Hmail)
    as Ha.
  split; [exact Ha|]. unfold UpdateUser. rewrite Hf, Ha. reflexivity.
Qed.

(** On a storage whose health does not change during the call, the
    conflict is found: a patch whose email is non-empty, differs from the
    target's and is held by a live user makes [UpdateUser] fail with the
    conflict error of code [DeletionFailed]; the fetched object is left as
    it was and the storage is not written. *)
Theorem UpdateUser_email_conflict (sql_id_eq : string -> Z -> bool) (db : DB)
    (userID : string) (user patch other : User)
    (Hfetch : fetchUser sql_id_eq db userID = (Some user, None))
    (Hnonempty : Email patch <> "")
    (Hdiffers : Email patch <> Email user)
    (Hother : In other (users db))
    (Hheld : Email other = Email patch)
    (Hlive : time.IsZero (DeletedAt other) = true) :
  other <> user /\
  applyUserUpdates db user patch = (user, emailOccupied) /\
  UpdateUser sql_id_eq db userID patch = (None, emailOccupied, db) /\
  (exists a, emailOccupied = Some (AppErr a) /\
             apperrors.Code a = apperrors.CodeDeletionFailed).
Proof.
  split; [congruence|].
  destruct (UpdateUser_conflict sql_id_eq db userID user patch other)
    as [Ha Hu]; auto.
  repeat split; auto. eexists; split; reflexivity.
Qed.

Lemma UpdateUser_email_conflict_witness :
  fetchUser pg_id_eq db3 "1" = (Some ann, None) /\
  Email taken <> "" /\ Email taken <> Email ann /\
  In bob (users db3) /\ Email bob = Email taken /\
  time.IsZero (DeletedAt bob) = true /\
  UpdateUser pg_id_eq db3 "1" taken = (None, emailOccupied, db3).
Proof.
  assert (H1 : fetchUser pg_id_eq db3 "1" = (Some ann, None)) by reflexivity.
  assert (H2 : Email taken <> "") by discriminate.
  assert (H3 : Email taken <> Email ann) by discriminate.
  assert (H4 : In bob (users db3)) by (simpl; auto).
  assert (H5 : Email bob = Email taken) by reflexivity.
  assert (H6 : time.IsZero (DeletedAt bob) = true) by reflexivity.
  repeat (split; [assumption|]).
  exact (proj1 (proj2 (proj2
    (UpdateUser_email_conflict pg_id_eq db3 "1" ann taken bob
       H1 H2 H3 H4 H5 H6)))).
Defined.

(** On a storage whose health does not change during the call, the
    uniqueness check looks at every row, soft-deleted ones included: a new
    email that only soft-deleted users hold still makes [UpdateUser] fail
    with the conflict error, and nothing is written. *)
Theorem UpdateUser_conflict_with_soft_deleted
    (sql_id_eq : string -> Z -> bool) (db : DB)
    (userID : string) (user patch other : User)
    (Hfetch : fetchUser sql_id_eq db userID = (Some user, None))
    (Hnonempty : Email patch <> "")
    (Hdiffers : Email patch <> Email user)
    (Hother : In other (users db))
    (Hheld : Email other = Email patch)
    (Honly : forall r, In r (users db) -> Email r = Email patch ->
                       time.IsZero (DeletedAt r) = false) :
  GetUserByEmail db (Email patch) = (None, None) /\
  UpdateUser sql_id_eq db userID patch = (None, emailOccupied, db).
Proof.
  split.
  - apply GetUserByEmail_absent. exact Honly.
  - apply (UpdateUser_conflict sql_id_eq db userID user patch other); auto.
Qed.

Lemma UpdateUser_conflict_with_soft_deleted_witness :
  fetchUser pg_id_eq db3 "1" = (Some ann, None) /\
  In cid (users db3) /\ Email cid = Email reuse /\
  (forall r, In r (users db3) -> Email r = Email reuse ->
             time.IsZero (DeletedAt r) = false) /\
  GetUserByEmail db3 (Email reuse) = (None, None) /\
  UpdateUser pg_id_eq db3 "1" reuse = (None, emailOccupied, db3).
Proof.
  assert (H1 : fetchUser pg_id_eq db3 "1" = (Some ann, None)) by reflexivity.
  assert (H2 : Email reuse <> "") by discriminate.
  assert (H3 : Email reuse <> Email ann) by discriminate.
  assert (H4 : In cid (users db3)) by (simpl; auto).
  assert (H5 : Email cid = Email reuse) by reflexivity.
  assert (H6 : forall r, In r (users db3) -> Email r = Email reuse ->
                         time.IsZero (DeletedAt r) = false).
  { intros r [<-|[<-|[<-|[]]]]; simpl; intros E;
      first [discriminate E | reflexivity]. }
  repeat (split; [assumption|]).
  exact (UpdateUser_conflict_with_soft_deleted pg_id_eq db3 "1" ann reuse cid
           H1 H2 H3 H4 H5 H6).
Defined.

Lemma copyOtherFields_empty (user patch : User) :
  FirstName patch = "" -> LastName patch = "" -> Password patch = "" ->
  RoleID patch = 0 -> time.IsZero (DeletedAt patch) = true ->
  copyOtherFields user patch = user.
Proof.
  intros H1 H2 H3 H4 H5. unfold copyOtherFields.
  rewrite H1, H2, H3, H4, H5. reflexivity.
Qed.

Lemma same_pk_same_row (rows : list User) (u r : User) :
  NoDup (map ID rows) -> In u rows -> In r rows -> ID r = ID u -> r = u.
Proof.
  induction rows as [|x rest IH]; simpl; [tauto|].
  intros Hnd Hu Hr Hid. inversion Hnd as [|? ? Hx Hrest]; subst.
  destruct Hu as [<-|Hu], Hr as [<-|Hr]; auto.
  - exfalso. apply Hx. rewrite <- Hid. apply in_map. exact Hr.
  - exfalso. apply Hx. rewrite Hid. apply in_map. exact Hu.
Qed.

Lemma replace_pk_stored (rows : list User) (u : User) :
  NoDup (map ID rows) -> In u rows -> replace_pk u rows = rows.
Proof.
  intros Hnd Hu. unfold replace_pk.
  rewrite <- (map_id rows) at 2. apply map_ext_in. intros r Hr.
  destruct (Z.eqb_spec (ID r) (ID u)) as [E|E]; [|reflexivity].
  symmetry. apply (same_pk_same_row rows); auto.
Qed.

Lemma has_pk_stored (rows : list User) (u : User) :
  In u rows -> has_pk (ID u) rows = true.
Proof.
  intros Hu. unfold has_pk. apply existsb_exists. exists u.
  split; [exact Hu | apply Z.eqb_refl].
Qed.

Lemma Save_existing (db : DB) (u : User) :
  health db = Healthy -> has_pk (ID u) (users db) = true -> ID u <> 0 ->
  Save db u = (ok 1, u, {| users := replace_pk u (users db);
                           health := health db |}).
Proof.
  intros Hh Hpk Hid. unfold Save. rewrite Hh.
  apply Z.eqb_neq in Hid. rewrite Hid, Hpk. reflexivity.
Qed.

Lemma Save_stored (db : DB) (u : User) :
  health db = Healthy -> In u (users db) -> ID u <> 0 ->
  Save db u = (ok 1, u, {| users := replace_pk u (users db);
                           health := health db |}).
Proof.
  intros Hh Hu Hid. apply Save_existing; auto using has_pk_stored.
Qed.

(** C6: a patch whose strings are empty, whose role is zero and whose
    deletion time is zero merges into the fetched user itself; saving it
    writes the row back as it is stored, so the table (with its primary
    key, unique and non-zero) is unchanged and the user is returned as it
    was fetched. *)
Theorem UpdateUser_empty_patch (sql_id_eq : string -> Z -> bool) (db : DB)
    (userID : string) (user patch : User)
    (Hfetch : fetchUser sql_id_eq db userID = (Some user, None))
    (Hemail : Email patch = "") (Hfirst : FirstName patch = "")
    (Hlast : LastName patch = "") (Hpassword : Password patch = "")
    (Hrole : RoleID patch = 0)
    (Hdeleted : time.IsZero (DeletedAt patch) = true)
    (Hkeys : NoDup (map ID (users db))) (Hkey : ID user <> 0) :
  applyUserUpdates db user patch = (user, None) /\
  saveUser db user = (user, None, db) /\
  UpdateUser sql_id_eq db userID patch = (Some user, None, db).
Proof.
  destruct (fetchUser_some _ _ _ _ _ Hfetch) as (Hh & Hin & _).
  assert (Ha : applyUserUpdates db user patch = (user, None)).
  { unfold applyUserUpdates. rewrite Hemail. simpl.
    rewrite copyOtherFields_empty; auto. }
  assert (Hs : saveUser db user = (user, None, db)).
  { unfold saveUser. rewrite (Save_stored db user Hh Hin Hkey).
    rewrite (replace_pk_stored _ _ Hkeys Hin). destruct db; reflexivity. }
  repeat split; auto.
  unfold UpdateUser. rewrite Hfetch, Ha, Hs. reflexivity.
Qed.

Lemma UpdateUser_empty_patch_witness :
  fetchUser pg_id_eq db3 "2" = (Some bob, None) /\
  NoDup (map ID (users db3)) /\ ID bob <> 0 /\
  UpdateUser pg_id_eq db3 "2" zeroUser = (Some bob, None, db3).
Proof.
  assert (H1 : fetchUser pg_id_eq db3 "2" = (Some bob, None)) by reflexivity.
  assert (H2 : NoDup (map ID (users db3))).
  { simpl. repeat constructor; simpl; intuition discriminate. }
  assert (H3 : ID bob <> 0) by discriminate.
  repeat (split; [assumption|]).
  exact (proj2 (proj2
    (UpdateUser_empty_patch pg_id_eq db3 "2" bob zeroUser H1
       eq_refl eq_refl eq_refl eq_refl eq_refl eq_refl H2 H3))).
Defined.

(** ** Soft deletion *)

Lemma DeleteUser_first (sql_id_eq : string -> Z -> bool) (db : DB)
    (now : time.Time) (userID : string) (user : User) :
  fetchUser sql_id_eq db userID = (Some user, None) ->
  time.IsZero now = false -> ID user <> 0 ->
  DeleteUser sql_id_eq db now userID
  = (Some (set_DeletedAt user now), None,
     {| users := replace_pk (set_DeletedAt user now) (users db);
        health := health db |}).
Proof.
  intros Hf Hnow Hid.
  destruct (fetchUser_some _ _ _ _ _ Hf) as (Hh & Hin & _).
  unfold DeleteUser, UpdateUser. rewrite Hf.
  assert (Ha : applyUserUpdates db user (set_DeletedAt zeroUser now)
               = (set_DeletedAt user now, None)).
  { unfold applyUserUpdates, copyOtherFields. simpl. rewrite Hnow. reflexivity. }
  rewrite Ha. unfold saveUser.
  rewrite (Save_existing db (set_DeletedAt user now) Hh); auto.
  simpl. apply has_pk_stored. exact Hin.
Qed.

(** C3, as the code has it: the first [DeleteUser] soft-deletes the user
    and returns it; the second one, on the same identifier, finds no
    non-deleted row, fails with [NoRecordFound] and writes nothing, so the
    storage stays in the state the first call left (the user soft-deleted
    at the first call's time). *)
Theorem DeleteUser_twice (sql_id_eq : string -> Z -> bool) (db : DB)
    (now1 now2 : time.Time) (userID : string) (user : User)
    (Hfetch : fetchUser sql_id_eq db userID = (Some user, None))
    (Hnow : time.IsZero now1 = false)
    (Hkey : ID user <> 0)
    (Hdesignates : forall i, sql_id_eq userID i = true -> i = ID user) :
  let deleted := set_DeletedAt user now1 in
  let db1 := {| users := replace_pk deleted (users db); health := health db |} in
  DeleteUser sql_id_eq db now1 userID = (Some deleted, None, db1) /\
  DeleteUser sql_id_eq db1 now2 userID = (None, noUserWithID, db1) /\
  (forall r, In r (users db1) -> ID r = ID user -> DeletedAt r = now1).
Proof.
  intros deleted db1.
  assert (Hrows : forall r, In r (users db1) ->
            r = deleted \/ (In r (users db) /\ ID r <> ID user)).
  { intros r Hr. unfold db1 in Hr. simpl in Hr. unfold replace_pk in Hr.
    apply in_map_iff in Hr as (x & Hx & Hin).
    simpl in Hx. destruct (Z.eqb_spec (ID x) (ID user)); subst; auto. }
  split; [|split].
  - apply DeleteUser_first; auto.
  - unfold DeleteUser, UpdateUser.
    rewrite GetUser_fetchUser, GetUser_no_live_match; [reflexivity|].
    intros r Hr Hm. destruct (Hrows r Hr) as [->|[_ Hne]].
    + exact Hnow.
    + elim Hne. apply Hdesignates. exact Hm.
  - intros r Hr Hid. destruct (Hrows r Hr) as [->|[_ Hne]];
      [reflexivity | contradiction].
Qed.

Lemma DeleteUser_twice_witness :
  fetchUser pg_id_eq db3 "1" = (Some ann, None) /\
  time.IsZero 1700000100 = false /\ ID ann <> 0 /\
  (forall i, pg_id_eq "1" i = true -> i = ID ann) /\
  DeleteUser pg_id_eq (snd (DeleteUser pg_id_eq db3 1700000100 "1"))
             1700000200 "1"
  = (None, noUserWithID, snd (DeleteUser pg_id_eq db3 1700000100 "1")).
Proof.
  assert (H1 : fetchUser pg_id_eq db3 "1" = (Some ann, None)) by reflexivity.
  assert (H2 : time.IsZero 1700000100 = false) by reflexivity.
  assert (H3 : ID ann <> 0) by discriminate.
  assert (H4 : forall i, pg_id_eq "1" i = true -> i = ID ann).
  { intros i H. apply Z.eqb_eq in H. symmetry. exact H. }
  repeat (split; [assumption|]).
  exact (proj1 (proj2
    (DeleteUser_twice pg_id_eq db3 1700000100 1700000200 "1" ann
       H1 H2 H3 H4))).
Defined.

(** C3, as the claim has it, fails: the second call does not succeed. *)
Lemma DeleteUser_second_call_fails :
  let first := DeleteUser pg_id_eq db3 1700000100 "1" in
  let second := DeleteUser pg_id_eq (snd first) 1700000200 "1" in
  fst first = (Some (set_DeletedAt ann 1700000100), None) /\
  fst second = (None, noUserWithID) /\
  snd (fst second) <> None /\
  snd second = snd first.
Proof. vm_compute. repeat split; discriminate. Qed.

(** ** Pagination *)

Lemma wrap_small (z : Z) : goint.in_range z -> goint.wrap z = z.
Proof.
  unfold goint.in_range, goint.MinInt, goint.MaxInt, goint.wrap. intros H.
  rewrite Z.mod_small; lia.
Qed.

Lemma listOffset_exact (page pageSize : Z) :
  1 <= page -> 1 <= pageSize -> (page - 1) * pageSize <= goint.MaxInt ->
  listOffset page pageSize = (page - 1) * pageSize.
Proof.
  intros Hp Hs Hfit. unfold listOffset, goint.mul, goint.sub.
  assert (0 <= page - 1 <= (page - 1) * pageSize) by nia.
  unfold goint.MaxInt in Hfit.
  rewrite (wrap_small (page - 1)), wrap_small; auto;
    unfold goint.in_range, goint.MinInt, goint.MaxInt; lia.
Qed.

Lemma in_firstn {A} (n : nat) (l : list A) (x : A) :
  In x (firstn n l) -> In x l.
Proof.
  intros H. rewrite <- (firstn_skipn n l). apply in_or_app. auto.
Qed.

Lemma in_skipn {A} (n : nat) (l : list A) (x : A) :
  In x (skipn n l) -> In x l.
Proof.
  intros H. rewrite <- (firstn_skipn n l). apply in_or_app. auto.
Qed.

Lemma limit_offset_page {A} (l o : Z) (rows : list A) :
  1 <= l -> 0 <= o ->
  limit l (offset o rows) = firstn (Z.to_nat l) (skipn (Z.to_nat o) rows).
Proof.
  intros Hl Ho. unfold limit, offset.
  destruct (Z.leb_spec 0 l); [|lia].
  destruct (Z.ltb_spec 0 o); [reflexivity|].
  replace o with 0 by lia. reflexivity.
Qed.

(** C9, as the claim has it, fails on a product that leaves the range of
    [int]: page [2^62 + 1] of 4 rows is queried with offset 0, not [2^64],
    and returns the first rows of the table. *)
Lemma ListUsers_offset_wraps :
  let page := 2 ^ 62 + 1 in
  let pageSize := 4 in
  1 <= page /\ 1 <= pageSize /\
  goint.in_range page /\ goint.in_range pageSize /\
  (page - 1) * pageSize = 2 ^ 64 /\
  listOffset page pageSize = 0 /\
  listOffset page pageSize <> (page - 1) * pageSize /\
  ListUsers db3 page pageSize = ([ann; bob], None).
Proof.
  vm_compute. repeat split; discriminate.
Qed.

(** ** Voting *)

Import voting.

Lemma GetUserByID_some (d : DB) (userID : Z) (user : User) (e : option error) :
  GetUserByID d userID = (Some user, e) ->
  health d = Healthy /\
  first_by_pk (fun r => ID r =? userID) (users d) = Some user /\
  ID user = userID /\ e = None.
Proof.
  unfold GetUserByID.
  destruct (First d (fun r => ID r =? userID)) as [[[g|] n] u] eqn:E; simpl.
  - destruct (gormerr.is_record_not_found g); discriminate.
  - intros [= <- <-]. apply First_ok in E as [Hh Hf].
    repeat split; auto.
    apply first_by_pk_some in Hf as [_ Hf]. apply Z.eqb_eq. exact Hf.
Qed.

Lemma Vote_refused (st : Store) (now : time.Time) (vote : models.Vote)
    (user : User) :
  GetUserByID (db st) (Vote_UserID vote) = (Some user, None) ->
  now - VoteUpdatedAt user < time.Hour ->
  Vote now vote st
  = ((0, cooldownErr), logged (OpGetUserByID (Vote_UserID vote)) st).
Proof.
  intros Hvoter Hrecent.
  unfold Vote, bind, userRepo_GetUserByID, bind, log. simpl.
  rewrite Hvoter. apply Z.ltb_lt in Hrecent. rewrite Hrecent. reflexivity.
Qed.

(** C1: a voter whose [VoteUpdatedAt] lies less than one hour before [now]
    gets the [VoteCooldown] error; the only operation that reached the
    storage is the load of the voter, so no vote was looked up and nothing
    was written. *)
Theorem Vote_cooldown (st : Store) (now : time.Time) (vote : models.Vote)
    (user : User)
    (Hvoter : GetUserByID (db st) (Vote_UserID vote) = (Some user, None))
    (Hrecent : now - VoteUpdatedAt user < time.Hour) :
  Vote now vote st
  = ((0, cooldownErr), logged (OpGetUserByID (Vote_UserID vote)) st) /\
  db (snd (Vote now vote st)) = db st /\
  votes (snd (Vote now vote st)) = votes st /\
  filter is_vote_lookup (ops (snd (Vote now vote st)))
  = filter is_vote_lookup (ops st) /\
  filter is_write (ops (snd (Vote now vote st))) = filter is_write (ops st).
Proof.
  rewrite (Vote_refused st now vote user Hvoter Hrecent). simpl.
  repeat split; auto; rewrite filter_app; simpl; apply app_nil_r.
Qed.

Lemma Vote_cooldown_witness :
  GetUserByID (db store0) (Vote_UserID testVote) = (Some voter, None) /\
  (t0 + 30 * time.Minute) - VoteUpdatedAt voter < time.Hour /\
  Vote (t0 + 30 * time.Minute) testVote store0
  = ((0, cooldownErr), logged (OpGetUserByID 1) store0).
Proof.
  assert (H1 : GetUserByID (db store0) (Vote_UserID testVote)
               = (Some voter, None)) by reflexivity.
  assert (H2 : (t0 + 30 * time.Minute) - VoteUpdatedAt voter < time.Hour)
    by reflexivity.
  repeat (split; [assumption|]).
  exact (proj1 (Vote_cooldown store0 (t0 + 30 * time.Minute) testVote voter
                  H1 H2)).
Defined.

Lemma fresh_vote_id_above (vs : list models.Vote) (w : models.Vote) :
  In w vs -> Vote_ID w < fresh_vote_id vs.
Proof.
  unfold fresh_vote_id. induction vs as [|v rest IH]; cbn [fold_right In]; [tauto|].
  intros [<-|Hw]; [lia|]. specialize (IH Hw). lia.
Qed.

(** The state a vote leaves behind once the cooldown has passed. *)
Lemma Vote_passed (st : Store) (now : time.Time) (vote : models.Vote)
    (user : User) :
  GetUserByID (db st) (Vote_UserID vote) = (Some user, None) ->
  time.Hour <= now - VoteUpdatedAt user ->
  Vote now vote st =
  match find (same_pair (Vote_UserID vote) (Vote_ProfileID vote)) (votes st) with
  | None =>
      let created := set_Vote_ID vote (fresh_vote_id (votes st)) in
      ((Vote_ID created, None),
       {| db := touch (Vote_UserID vote) now (db st);
          votes := votes st ++ [created];
          ops := ops st ++ [OpGetUserByID (Vote_UserID vote);
                            OpGetVote (Vote_UserID vote) (Vote_ProfileID vote);
                            OpInsertVote created;
                            OpTouchVoter (Vote_UserID vote) now] |})
  | Some existing =>
      let updated := set_Vote_Value existing (Vote_Value vote) in
      ((Vote_ID existing, None),
       {| db := touch (Vote_UserID vote) now (db st);
          votes := map (fun w => if Vote_ID w =? Vote_ID existing
                                 then updated else w) (votes st);
          ops := ops st ++ [OpGetUserByID (Vote_UserID vote);
                            OpGetVote (Vote_UserID vote) (Vote_ProfileID vote);
                            OpUpdateVote updated;
                            OpTouchVoter (Vote_UserID vote) now] |})
  end.
Proof.
  intros Hvoter Hcooled.
  destruct (GetUserByID_some _ _ _ _ Hvoter) as (Hh & _).
  unfold Vote, bind, userRepo_GetUserByID, bind, log. simpl.
  rewrite Hvoter. apply Z.ltb_ge in Hcooled. rewrite Hcooled.
  unfold voteRepo_GetVote, bind, log. simpl. rewrite Hh. simpl.
  destruct (find _ (votes st)) as [existing|] eqn:Hfind.
  - apply find_some in Hfind as [_ Hpair].
    apply andb_true_iff in Hpair as [Hu _]. apply Z.eqb_eq in Hu.
    unfold voteRepo_UpdateVote, ret. simpl. rewrite Hh. simpl.
    rewrite Hu, <- !app_assoc. reflexivity.
  - unfold voteRepo_CreateVote, ret. simpl. rewrite Hh. simpl.
    rewrite <- !app_assoc. reflexivity.
Qed.

(** C2: once the cooldown has passed, a pair without a vote gets one new
    record, with the pair and the value of the request and an identity that
    no record had, which [Vote] returns; a pair with a vote keeps its
    record, whose value becomes the requested one in place (same identity,
    same pair, the table keeps its length and its other records), and
    [Vote] returns the identity of that existing record. *)
Theorem Vote_create_or_update (st : Store) (now : time.Time)
    (vote : models.Vote) (user : User)
    (Hvoter : GetUserByID (db st) (Vote_UserID vote) = (Some user, None))
    (Hcooled : time.Hour <= now - VoteUpdatedAt user) :
  match find (same_pair (Vote_UserID vote) (Vote_ProfileID vote)) (votes st) with
  | None =>
      let created := set_Vote_ID vote (fresh_vote_id (votes st)) in
      fst (Vote now vote st) = (Vote_ID created, None) /\
      votes (snd (Vote now vote st)) = votes st ++ [created] /\
      Vote_Value created = Vote_Value vote /\
      (forall w, In w (votes st) -> Vote_ID w <> Vote_ID created) /\
      Vote_UserID created = Vote_UserID vote /\
      Vote_ProfileID created = Vote_ProfileID vote
  | Some existing =>
      let updated := set_Vote_Value existing (Vote_Value vote) in
      fst (Vote now vote st) = (Vote_ID existing, None) /\
      votes (snd (Vote now vote st))
      = map (fun w => if Vote_ID w =? Vote_ID existing then updated else w)
            (votes st) /\
      In updated (votes (snd (Vote now vote st))) /\
      List.length (votes (snd (Vote now vote st))) = List.length (votes st) /\
      filter is_write (ops (snd (Vote now vote st)))
      = filter is_write (ops st)
        ++ [OpUpdateVote updated; OpTouchVoter (Vote_UserID vote) now] /\
      Vote_Value updated = Vote_Value vote /\
      Vote_ID updated = Vote_ID existing /\
      Vote_UserID updated = Vote_UserID vote /\
      Vote_ProfileID updated = Vote_ProfileID vote /\
      (forall w, In w (votes (snd (Vote now vote st))) ->
                 Vote_ID w = Vote_ID existing ->
                 Vote_Value w = Vote_Value vote) /\
      (forall w, Vote_ID w <> Vote_ID existing ->
                 (In w (votes (snd (Vote now vote st))) <-> In w (votes st)))
  end.
Proof.
  rewrite (Vote_passed st now vote user Hvoter Hcooled).
  destruct (find _ (votes st)) as [existing|] eqn:Hfind; cbn [fst snd votes ops].
  - apply find_some in Hfind as [Hin Hpair].
    apply andb_true_iff in Hpair as [Hu Hp].
    apply Z.eqb_eq in Hu, Hp.
    repeat split; try assumption; try reflexivity.
    + apply in_map_iff. exists existing. rewrite Z.eqb_refl. auto.
    + apply length_map.
    + rewrite filter_app. reflexivity.
    + intros w Hw Hid. apply in_map_iff in Hw as (x & Hx & _).
      destruct (Z.eqb_spec (Vote_ID x) (Vote_ID existing)) as [E|E].
      * subst w. reflexivity.
      * subst w. contradiction.
    + intros Hw. apply in_map_iff in Hw as (x & Hx & Hxin).
      destruct (Z.eqb_spec (Vote_ID x) (Vote_ID existing)) as [E|E].
      * subst w. simpl in H. contradiction.
      * subst w. exact Hxin.
    + intros Hw. apply in_map_iff. exists w.
      apply Z.eqb_neq in H. rewrite H. auto.
  - repeat split. intros w Hw. apply fresh_vote_id_above in Hw. simpl. lia.
Qed.

Lemma Vote_create_or_update_witness :
  GetUserByID (db store0) 1 = (Some voter, None) /\
  time.Hour <= (t0 + 2 * time.Hour) - VoteUpdatedAt voter /\
  fst (Vote (t0 + 2 * time.Hour) testVote store0) = (10, None) /\
  votes (snd (Vote (t0 + 2 * time.Hour) testVote store0))
  = [{| Vote_ID := 10; Vote_UserID := 1; Vote_ProfileID := 2;
        Vote_Value := 1 |}] /\
  fst (Vote (t0 + 2 * time.Hour) otherVote store0) = (11, None) /\
  votes (snd (Vote (t0 + 2 * time.Hour) otherVote store0))
  = [existingVote;
     {| Vote_ID := 11; Vote_UserID := 1; Vote_ProfileID := 3;
        Vote_Value := -1 |}].
Proof.
  assert (H1 : GetUserByID (db store0) 1 = (Some voter, None)) by reflexivity.
  assert (H2 : time.Hour <= (t0 + 2 * time.Hour) - VoteUpdatedAt voter)
    by (vm_compute; discriminate).
  repeat (split; [assumption|]).
  pose proof (Vote_create_or_update store0 (t0 + 2 * time.Hour) testVote voter
                H1 H2) as Hupd.
  pose proof (Vote_create_or_update store0 (t0 + 2 * time.Hour) otherVote voter
                H1 H2) as Hnew.
  simpl in Hupd, Hnew.
  destruct Hupd as (Ha & Hb & _). destruct Hnew as (Hc & Hd & _).
  repeat split; assumption.
Defined.

Lemma first_by_pk_map (f : User -> User) (cond : User -> bool)
    (rows : list User) :
  (forall r, ID (f r) = ID r) -> (forall r, cond (f r) = cond r) ->
  first_by_pk cond (map f rows) = option_map f (first_by_pk cond rows).
Proof.
  intros Hid Hcond. induction rows as [|r rest IH]; simpl; [reflexivity|].
  rewrite IH, Hcond. destruct (cond r); [|reflexivity].
  destruct (first_by_pk cond rest) as [b|]; simpl; [|reflexivity].
  rewrite !Hid. destruct (ID b <? ID r); reflexivity.
Qed.

Lemma GetUserByID_touch (d : DB) (userID : Z) (now : time.Time) (user : User) :
  GetUserByID d userID = (Some user, None) ->
  GetUserByID (touch userID now d) userID
  = (Some (set_VoteUpdatedAt user now), None).
Proof.
  intros H. apply GetUserByID_some in H as (Hh & Hf & Hid & _).
  set (f := fun r => if ID r =? userID then set_VoteUpdatedAt r now else r).
  assert (Hf' : first_by_pk (fun r => ID r =? userID) (map f (users d))
                = Some (set_VoteUpdatedAt user now)).
  { rewrite first_by_pk_map.
    - rewrite Hf. unfold f. simpl. rewrite Hid, Z.eqb_refl. reflexivity.
    - intros r. unfold f. destruct (ID r =? userID); reflexivity.
    - intros r. unfold f. destruct (ID r =? userID) eqn:E; simpl; auto. }
  unfold GetUserByID.
  rewrite (First_healthy_found (touch userID now d) _
             (set_VoteUpdatedAt user now) Hh Hf').
  reflexivity.
Qed.

Lemma touch_rows (d : DB) (userID : Z) (now : time.Time) (r : User) :
  In r (users (touch userID now d)) -> ID r = userID -> VoteUpdatedAt r = now.
Proof.
  unfold touch. cbn [users]. intros Hr Hid.
  apply in_map_iff in Hr as (x & <- & _).
  destruct (Z.eqb_spec (ID x) userID) as [E|E]; [reflexivity|].
  contradiction.
Qed.

Lemma Vote_success_passed (st st' : Store) (now : time.Time)
    (vote : models.Vote) (id : Z) :
  Vote now vote st = ((id, None), st') ->
  exists user,
    GetUserByID (db st) (Vote_UserID vote) = (Some user, None) /\
    time.Hour <= now - VoteUpdatedAt user.
Proof.
  intros Hok.
  destruct (GetUserByID (db st) (Vote_UserID vote)) as [[user|] [e|]] eqn:Hg;
    try (exfalso; revert Hok;
         unfold Vote, bind, userRepo_GetUserByID, bind, log; simpl;
         rewrite Hg; discriminate).
  exists user. split; [reflexivity|].
  destruct (Z.lt_ge_cases (now - VoteUpdatedAt user) time.Hour) as [Hlt|Hge];
    [|exact Hge].
  rewrite (Vote_refused st now vote user Hg Hlt) in Hok. discriminate.
Qed.

(** C4: a [Vote] call that succeeds refreshes the voter's [VoteUpdatedAt]
    exactly once, to the time of the call: the log gains one refresh for
    the voter, the voter is stored with the new time, and a further vote of
    that voter within the hour is refused with [VoteCooldown]. *)
Theorem Vote_refreshes_cooldown (st st' : Store) (now : time.Time)
    (vote : models.Vote) (id : Z)
    (Hok : Vote now vote st = ((id, None), st')) :
  touches (Vote_UserID vote) (ops st') = S (touches (Vote_UserID vote) (ops st)) /\
  (forall r, In r (users (db st')) -> ID r = Vote_UserID vote ->
             VoteUpdatedAt r = now) /\
  (exists v, GetUserByID (db st') (Vote_UserID vote) = (Some v, None) /\
             VoteUpdatedAt v = now) /\
  (forall now' (vote' : models.Vote),
     Vote_UserID vote' = Vote_UserID vote -> now' - now < time.Hour ->
     fst (Vote now' vote' st') = (0, cooldownErr)).
Proof.
  destruct (Vote_success_passed st st' now vote id Hok) as (user & Hg & Hge).
  pose proof (GetUserByID_touch _ _ now _ Hg) as Hg'.
  assert (Hst : db st' = touch (Vote_UserID vote) now (db st) /\
                touches (Vote_UserID vote) (ops st')
                = S (touches (Vote_UserID vote) (ops st))).
  { rewrite (Vote_passed st now vote user Hg Hge) in Hok.
    destruct (find _ (votes st)); simpl in Hok; injection Hok as _ <-; simpl;
      (split; [reflexivity|]);
      unfold touches; rewrite filter_app, length_app; simpl;
      rewrite Z.eqb_refl; simpl; lia. }
  destruct Hst as [Hdb Htouch]. rewrite Hdb.
  split; [exact Htouch|]. split; [|split].
  - intros r. apply touch_rows.
  - eexists. split; [exact Hg' | reflexivity].
  - intros now' vote' Hsame Hsoon.
    rewrite <- Hdb, <- Hsame in Hg'.
    rewrite (Vote_refused st' now' vote' _ Hg' Hsoon). reflexivity.
Qed.

Lemma Vote_refreshes_cooldown_witness :
  fst (Vote (t0 + 2 * time.Hour) otherVote store0) = (11, None) /\
  touches 1 (ops (snd (Vote (t0 + 2 * time.Hour) otherVote store0))) = 1%nat /\
  fst (Vote (t0 + 2 * time.Hour + 59 * time.Minute) testVote
         (snd (Vote (t0 + 2 * time.Hour) otherVote store0)))
  = (0, cooldownErr).
Proof.
  assert (H : Vote (t0 + 2 * time.Hour) otherVote store0
              = ((11, None), snd (Vote (t0 + 2 * time.Hour) otherVote store0)))
    by reflexivity.
  destruct (Vote_refreshes_cooldown _ _ _ _ _ H) as (H1 & _ & _ & H4).
  split; [reflexivity|]. split; [exact H1|].
  apply H4; [reflexivity | vm_compute; reflexivity].
Defined.

(** * Further properties of the repository *)

(** ** The merge step *)

Lemma applyUserUpdates_same_key (tx : DB) (user patch : User) :
  ID (fst (applyUserUpdates tx user patch)) = ID user /\
  VoteUpdatedAt (fst (applyUserUpdates tx user patch)) = VoteUpdatedAt user.
Proof.
  unfold applyUserUpdates, copyOtherFields.
  destruct (negb (Email patch =? "")%string
            && negb (Email patch =? Email user)%string);
    [destruct (First tx (email_is (Email patch))) as [result found];
     destruct (RowsAffected result >? 0); [split; reflexivity|]|];
    destruct (negb (FirstName patch =? "")%string),
             (negb (LastName patch =? "")%string),
             (negb (Password patch =? "")%string),
             (negb (time.IsZero (DeletedAt patch))),
             (RoleID patch >? 0); split; reflexivity.
Qed.

(** X1: whatever the patch and the storage, the merge leaves the
    identifier and the vote timestamp of the user as they are: a patch
    cannot move a user to another key. *)
Theorem applyUserUpdates_keeps_identity (tx : DB) (user patch : User) :
  ID (fst (applyUserUpdates tx user patch)) = ID user /\
  VoteUpdatedAt (fst (applyUserUpdates tx user patch)) = VoteUpdatedAt user.
Proof. exact (applyUserUpdates_same_key tx user patch). Qed.

Lemma copyOtherFields_fields (user patch : User) :
  let u := copyOtherFields user patch in
  ID u = ID user /\ Email u = Email user /\
  VoteUpdatedAt u = VoteUpdatedAt user /\
  FirstName u = orElse (FirstName patch) (FirstName user) /\
  LastName u = orElse (LastName patch) (LastName user) /\
  Password u = orElse (Password patch) (Password user) /\
  DeletedAt u = (if time.IsZero (DeletedAt patch) then DeletedAt user
                 else DeletedAt patch) /\
  RoleID u = (if RoleID patch >? 0 then RoleID patch else RoleID user).
Proof.
  unfold copyOtherFields, orElse.
  destruct (FirstName patch =? "")%string, (LastName patch =? "")%string,
           (Password patch =? "")%string, (time.IsZero (DeletedAt patch)),
           (RoleID patch >? 0); simpl; repeat split; reflexivity.
Qed.

Lemma applyUserUpdates_fields (tx : DB) (user patch merged : User)
    (Hok : applyUserUpdates tx user patch = (merged, None)) :
  Email merged = orElse (Email patch) (Email user) /\
  FirstName merged = orElse (FirstName patch) (FirstName user) /\
  LastName merged = orElse (LastName patch) (LastName user) /\
  Password merged = orElse (Password patch) (Password user) /\
  DeletedAt merged = (if time.IsZero (DeletedAt patch) then DeletedAt user
                      else DeletedAt patch) /\
  RoleID merged = (if RoleID patch >? 0 then RoleID patch else RoleID user).
Proof.
  revert Hok. unfold applyUserUpdates.
  destruct (String.eqb_spec (Email patch) "") as [He|He];
    destruct (String.eqb_spec (Email patch) (Email user)) as [Hu|Hu]; simpl;
    try (intros [= <-];
         destruct (copyOtherFields_fields user patch) as (_ & E & _ & H);
         split; [|exact H]; unfold orElse;
         destruct (String.eqb_spec (Email patch) ""); congruence).
  destruct (First tx (email_is (Email patch))) as [result found].
  destruct (RowsAffected result >? 0); [discriminate|]. intros [= <-].
  destruct (copyOtherFields_fields (set_Email user (Email patch)) patch)
    as (_ & E & _ & H).
  split; [|exact H]. rewrite E. simpl. unfold orElse.
  destruct (String.eqb_spec (Email patch) ""); [contradiction|reflexivity].
Qed.

(** X2: when the merge succeeds, every field of the result is the patch's
    value where the patch sets one (non-empty string, non-zero time,
    positive role) and the stored value otherwise. *)
Theorem applyUserUpdates_merge (tx : DB) (user patch merged : User)
    (Hok : applyUserUpdates tx user patch = (merged, None)) :
  Email merged = orElse (Email patch) (Email user) /\
  FirstName merged = orElse (FirstName patch) (FirstName user) /\
  LastName merged = orElse (LastName patch) (LastName user) /\
  Password merged = orElse (Password patch) (Password user) /\
  DeletedAt merged = (if time.IsZero (DeletedAt patch) then DeletedAt user
                      else DeletedAt patch) /\
  RoleID merged = (if RoleID patch >? 0 then RoleID patch else RoleID user).
Proof. exact (applyUserUpdates_fields tx user patch merged Hok). Qed.

Lemma applyUserUpdates_merge_witness :
  applyUserUpdates db3 ann rename
  = (fst (applyUserUpdates db3 ann rename), None) /\
  Email (fst (applyUserUpdates db3 ann rename)) = "anna@example.com" /\
  FirstName (fst (applyUserUpdates db3 ann rename)) = "Anna" /\
  Password (fst (applyUserUpdates db3 ann rename)) = "secret".
Proof.
  assert (H : applyUserUpdates db3 ann rename
              = (fst (applyUserUpdates db3 ann rename), None)) by reflexivity.
  split; [exact H|].
  destruct (applyUserUpdates_merge db3 ann rename _ H)
    as (H1 & H2 & _ & H4 & _).
  repeat split; assumption.
Defined.

Lemma copyOtherFields_idempotent (user patch : User) :
  copyOtherFields (copyOtherFields user patch) patch
  = copyOtherFields user patch.
Proof.
  unfold copyOtherFields.
  destruct (negb (FirstName patch =? "")%string),
           (negb (LastName patch =? "")%string),
           (negb (Password patch =? "")%string),
           (negb (time.IsZero (DeletedAt patch))),
           (RoleID patch >? 0); reflexivity.
Qed.

Lemma applyUserUpdates_again (tx tx' : DB) (user patch merged : User)
    (Hok : applyUserUpdates tx user patch = (merged, None)) :
  applyUserUpdates tx' merged patch = (merged, None).
Proof.
  destruct (applyUserUpdates_fields tx user patch merged Hok) as (Hmail & _).
  assert (Hcopy : copyOtherFields merged patch = merged).
  { revert Hok. unfold applyUserUpdates.
    destruct (negb (Email patch =? "")%string
              && negb (Email patch =? Email user)%string).
    - destruct (First tx (email_is (Email patch))) as [result found].
      destruct (RowsAffected result >? 0); [discriminate|].
      intros [= <-]. apply copyOtherFields_idempotent.
    - intros [= <-]. apply copyOtherFields_idempotent. }
  unfold applyUserUpdates.
  destruct (String.eqb_spec (Email patch) "") as [He|He]; simpl;
    [rewrite Hcopy; reflexivity|].
  assert (Email patch = Email merged) as ->.
  { rewrite Hmail. unfold orElse.
    destruct (String.eqb_spec (Email patch) ""); [contradiction|reflexivity]. }
  rewrite String.eqb_refl. simpl. rewrite Hcopy. reflexivity.
Qed.

(** X3: the merge is idempotent: merging the same patch into the merged
    user succeeds without a further uniqueness query, whatever the storage
    then holds, and changes nothing. *)
Theorem applyUserUpdates_idempotent (tx tx' : DB) (user patch merged : User)
    (Hok : applyUserUpdates tx user patch = (merged, None)) :
  applyUserUpdates tx' merged patch = (merged, None).
Proof. exact (applyUserUpdates_again tx tx' user patch merged Hok). Qed.

Lemma applyUserUpdates_idempotent_witness :
  applyUserUpdates db3 ann rename
  = (fst (applyUserUpdates db3 ann rename), None) /\
  applyUserUpdates db3 (fst (applyUserUpdates db3 ann rename)) rename
  = (fst (applyUserUpdates db3 ann rename), None).
Proof.
  assert (H : applyUserUpdates db3 ann rename
              = (fst (applyUserUpdates db3 ann rename), None)) by reflexivity.
  split; [exact H|].
  exact (applyUserUpdates_idempotent db3 db3 ann rename _ H).
Defined.

(** ** [UpdateUser] as a whole *)

Lemma UpdateUser_success (sql_id_eq : string -> Z -> bool) (db : DB)
    (userID : string) (user patch merged : User) :
  fetchUser sql_id_eq db userID = (Some user, None) ->
  applyUserUpdates db user patch = (merged, None) ->
  ID user <> 0 ->
  UpdateUser sql_id_eq db userID patch
  = (Some merged, None,
     {| users := replace_pk merged (users db); health := health db |}).
Proof.
  intros Hf Ha Hid.
  destruct (fetchUser_some _ _ _ _ _ Hf) as (Hh & Hin & _).
  pose proof (proj1 (applyUserUpdates_same_key db user patch)) as Hk.
  rewrite Ha in Hk. simpl in Hk.
  unfold UpdateUser. rewrite Hf, Ha. unfold saveUser.
  rewrite (Save_existing db merged Hh); [reflexivity| |congruence].
  rewrite Hk. apply has_pk_stored. exact Hin.
Qed.

Lemma UpdateUser_success_inv (sql_id_eq : string -> Z -> bool) (db db' : DB)
    (userID : string) (user patch updated : User) :
  fetchUser sql_id_eq db userID = (Some user, None) ->
  ID user <> 0 ->
  UpdateUser sql_id_eq db userID patch = (Some updated, None, db') ->
  applyUserUpdates db user patch = (updated, None) /\
  ID updated = ID user /\
  db' = {| users := replace_pk updated (users db); health := health db |}.
Proof.
  intros Hf Hid Hok.
  destruct (applyUserUpdates db user patch) as [merged [e|]] eqn:Ha.
  - unfold UpdateUser in Hok. rewrite Hf, Ha in Hok. discriminate.
  - rewrite (UpdateUser_success _ _ _ _ _ _ Hf Ha Hid) in Hok.
    injection Hok as <- <-.
    pose proof (proj1 (applyUserUpdates_same_key db user patch)) as Hk.
    rewrite Ha in Hk. auto.
Qed.

(** X4: an update of a user that is missing or soft-deleted fails with
    [NoRecordFound] before the merge: whatever the patch and the state of
    the storage, nothing is written. *)
Theorem UpdateUser_missing_user (sql_id_eq : string -> Z -> bool) (db : DB)
    (userID : string) (patch : User)
    (Hgone : forall r, In r (users db) -> sql_id_eq userID (ID r) = true ->
                       time.IsZero (DeletedAt r) = false) :
  UpdateUser sql_id_eq db userID patch = (None, noUserWithID, db).
Proof.
  unfold UpdateUser.
  rewrite GetUser_fetchUser, GetUser_no_live_match; [reflexivity|exact Hgone].
Qed.

Lemma UpdateUser_missing_user_witness :
  (forall r, In r (users db3) -> pg_id_eq "3" (ID r) = true ->
             time.IsZero (DeletedAt r) = false) /\
  UpdateUser pg_id_eq db3 "3" rename = (None, noUserWithID, db3).
Proof.
  assert (H : forall r, In r (users db3) -> pg_id_eq "3" (ID r) = true ->
                        time.IsZero (DeletedAt r) = false).
  { intros r [<-|[<-|[<-|[]]]]; vm_compute; congruence. }
  split; [exact H|].
  exact (UpdateUser_missing_user pg_id_eq db3 "3" rename H).
Defined.

Lemma replace_pk_in (u r : User) (rows : list User) :
  In r (replace_pk u rows) -> r = u \/ (In r rows /\ ID r <> ID u).
Proof.
  unfold replace_pk. intros Hr. apply in_map_iff in Hr as (x & Hx & Hin).
  destruct (Z.eqb_spec (ID x) (ID u)); subst; auto.
Qed.

Lemma replace_pk_has (u x : User) (rows : list User) :
  In x rows -> ID x = ID u -> In u (replace_pk u rows).
Proof.
  intros Hx Hid. unfold replace_pk. apply in_map_iff. exists x.
  rewrite Hid, Z.eqb_refl. auto.
Qed.

Lemma replace_pk_other (u r : User) (rows : list User) :
  In r rows -> ID r <> ID u -> In r (replace_pk u rows).
Proof.
  intros Hr Hid. unfold replace_pk. apply in_map_iff. exists r.
  apply Z.eqb_neq in Hid. rewrite Hid. auto.
Qed.

Lemma replace_pk_keys (u : User) (rows : list User) :
  map ID (replace_pk u rows) = map ID rows.
Proof.
  unfold replace_pk. rewrite map_map. apply map_ext. intros r.
  destruct (Z.eqb_spec (ID r) (ID u)); congruence.
Qed.

Lemma replace_pk_twice (u : User) (rows : list User) :
  replace_pk u (replace_pk u rows) = replace_pk u rows.
Proof.
  unfold replace_pk. rewrite map_map. apply map_ext. intros r.
  destruct (Z.eqb_spec (ID r) (ID u)) as [E|E].
  - rewrite Z.eqb_refl. reflexivity.
  - apply Z.eqb_neq in E. rewrite E. reflexivity.
Qed.

Lemma first_by_pk_only (cond : User -> bool) (rows : list User) (u : User) :
  In u rows -> cond u = true ->
  (forall r, In r rows -> cond r = true -> r = u) ->
  first_by_pk cond rows = Some u.
Proof.
  intros Hin Hc Honly.
  destruct (first_by_pk_found cond rows u Hin Hc) as [x Hx].
  rewrite Hx. destruct (first_by_pk_some cond rows x Hx) as [Hxin Hxc].
  rewrite (Honly x Hxin Hxc). reflexivity.
Qed.

Lemma GetUser_after_update (sql_id_eq : string -> Z -> bool)
    (db db' : DB) (userID : string) (user patch updated : User) :
  fetchUser sql_id_eq db userID = (Some user, None) ->
  ID user <> 0 ->
  (forall i, sql_id_eq userID i = true -> i = ID user) ->
  time.IsZero (DeletedAt patch) = true ->
  UpdateUser sql_id_eq db userID patch = (Some updated, None, db') ->
  GetUser sql_id_eq db' userID = (Some updated, None).
Proof.
  intros Hfetch Hkey Hdesignates Hkeep Hok.
  destruct (fetchUser_some _ _ _ _ _ Hfetch) as (Hh & Hin & Hm & Hlive & _).
  destruct (UpdateUser_success_inv _ _ _ _ _ _ _ Hfetch Hkey Hok)
    as (Ha & Hid & ->).
  destruct (applyUserUpdates_fields _ _ _ _ Ha) as (_ & _ & _ & _ & Hdel & _).
  rewrite Hkeep in Hdel.
  unfold GetUser.
  rewrite (First_healthy_found _ _ updated); [reflexivity|exact Hh|].
  cbn [users]. apply first_by_pk_only.
  - apply (replace_pk_has updated user); auto.
  - unfold id_and_not_deleted, not_deleted. rewrite Hid, Hm, Hdel. exact Hlive.
  - intros r Hr Hc. apply replace_pk_in in Hr as [->|[_ Hne]]; [reflexivity|].
    apply andb_true_iff in Hc as [Hc _]. elim Hne.
    rewrite (Hdesignates _ Hc). congruence.
Qed.

(** X5: an update that succeeds and does not set [DeletedAt] is read back:
    [GetUser] on the same identifier then returns exactly the user that
    [UpdateUser] returned. *)
Theorem UpdateUser_then_GetUser (sql_id_eq : string -> Z -> bool)
    (db db' : DB) (userID : string) (user patch updated : User)
    (Hfetch : fetchUser sql_id_eq db userID = (Some user, None))
    (Hkey : ID user <> 0)
    (Hdesignates : forall i, sql_id_eq userID i = true -> i = ID user)
    (Hkeep : time.IsZero (DeletedAt patch) = true)
    (Hok : UpdateUser sql_id_eq db userID patch = (Some updated, None, db')) :
  GetUser sql_id_eq db' userID = (Some updated, None).
Proof.
  exact (GetUser_after_update sql_id_eq db db' userID user patch updated
           Hfetch Hkey Hdesignates Hkeep Hok).
Qed.

Lemma UpdateUser_then_GetUser_witness :
  fetchUser pg_id_eq db3 "1" = (Some ann, None) /\ ID ann <> 0 /\
  (forall i, pg_id_eq "1" i = true -> i = ID ann) /\
  time.IsZero (DeletedAt rename) = true /\
  GetUser pg_id_eq (snd (UpdateUser pg_id_eq db3 "1" rename)) "1"
  = (fst (fst (UpdateUser pg_id_eq db3 "1" rename)), None).
Proof.
  assert (H1 : fetchUser pg_id_eq db3 "1" = (Some ann, None)) by reflexivity.
  assert (H2 : ID ann <> 0) by discriminate.
  assert (H3 : forall i, pg_id_eq "1" i = true -> i = ID ann).
  { intros i H. apply Z.eqb_eq in H. symmetry. exact H. }
  assert (H4 : time.IsZero (DeletedAt rename) = true) by reflexivity.
  repeat (split; [assumption|]).
  exact (UpdateUser_then_GetUser pg_id_eq db3 _ "1" ann rename _
           H1 H2 H3 H4 eq_refl).
Defined.

(** X6: a successful update rewrites the target's row and nothing else:
    the table keeps its keys in their order, the storage keeps its health,
    and every row under another key is present after the update exactly
    when it was before. *)
Theorem UpdateUser_frame (sql_id_eq : string -> Z -> bool)
    (db db' : DB) (userID : string) (user patch updated : User)
    (Hfetch : fetchUser sql_id_eq db userID = (Some user, None))
    (Hkey : ID user <> 0)
    (Hok : UpdateUser sql_id_eq db userID patch = (Some updated, None, db')) :
  map ID (users db') = map ID (users db) /\
  health db' = health db /\
  In updated (users db') /\
  (forall r, ID r <> ID user -> (In r (users db') <-> In r (users db))).
Proof.
  destruct (fetchUser_some _ _ _ _ _ Hfetch) as (_ & Hin & _).
  destruct (UpdateUser_success_inv _ _ _ _ _ _ _ Hfetch Hkey Hok)
    as (_ & Hid & ->).
  cbn [users health]. split; [apply replace_pk_keys|]. split; [reflexivity|].
  split; [apply (replace_pk_has updated user); auto|].
  intros r Hr. rewrite <- Hid in Hr. split.
  - intros H. apply replace_pk_in in H as [->|[H _]]; [contradiction|exact H].
  - intros H. apply replace_pk_other; auto.
Qed.

Lemma UpdateUser_frame_witness :
  fetchUser pg_id_eq db3 "1" = (Some ann, None) /\ ID ann <> 0 /\
  map ID (users (snd (UpdateUser pg_id_eq db3 "1" rename))) = [1; 2; 3] /\
  In bob (users (snd (UpdateUser pg_id_eq db3 "1" rename))).
Proof.
  assert (H1 : fetchUser pg_id_eq db3 "1" = (Some ann, None)) by reflexivity.
  assert (H2 : ID ann <> 0) by discriminate.
  repeat (split; [assumption|]).
  destruct (UpdateUser_frame pg_id_eq db3 _ "1" ann rename _ H1 H2 eq_refl)
    as (Hk & _ & _ & Hr).
  split; [exact Hk|]. apply Hr; [discriminate | simpl; auto].
Defined.

(** X7: updating twice with the same patch is the same as updating once:
    the second call succeeds, returns the same user and leaves the storage
    as the first call left it (for a patch that does not set [DeletedAt]). *)
Theorem UpdateUser_idempotent (sql_id_eq : string -> Z -> bool)
    (db db' : DB) (userID : string) (user patch updated : User)
    (Hfetch : fetchUser sql_id_eq db userID = (Some user, None))
    (Hkey : ID user <> 0)
    (Hdesignates : forall i, sql_id_eq userID i = true -> i = ID user)
    (Hkeep : time.IsZero (DeletedAt patch) = true)
    (Hok : UpdateUser sql_id_eq db userID patch = (Some updated, None, db')) :
  UpdateUser sql_id_eq db' userID patch = (Some updated, None, db').
Proof.
  pose proof (GetUser_after_update _ _ _ _ _ _ _
                Hfetch Hkey Hdesignates Hkeep Hok) as Hget.
  rewrite <- GetUser_fetchUser in Hget.
  destruct (UpdateUser_success_inv _ _ _ _ _ _ _ Hfetch Hkey Hok)
    as (Ha & Hid & Hdb).
  pose proof (applyUserUpdates_again db db' _ _ _ Ha) as Ha'.
  rewrite (UpdateUser_success _ _ _ _ _ _ Hget Ha') by congruence.
  rewrite Hdb. cbn [users health]. rewrite replace_pk_twice. reflexivity.
Qed.

Lemma UpdateUser_idempotent_witness :
  fetchUser pg_id_eq db3 "1" = (Some ann, None) /\ ID ann <> 0 /\
  (forall i, pg_id_eq "1" i = true -> i = ID ann) /\
  time.IsZero (DeletedAt rename) = true /\
  UpdateUser pg_id_eq (snd (UpdateUser pg_id_eq db3 "1" rename)) "1" rename
  = UpdateUser pg_id_eq db3 "1" rename.
Proof.
  assert (H1 : fetchUser pg_id_eq db3 "1" = (Some ann, None)) by reflexivity.
  assert (H2 : ID ann <> 0) by discriminate.
  assert (H3 : forall i, pg_id_eq "1" i = true -> i = ID ann).
  { intros i H. apply Z.eqb_eq in H. symmetry. exact H. }
  assert (H4 : time.IsZero (DeletedAt rename) = true) by reflexivity.
  repeat (split; [assumption|]).
  exact (UpdateUser_idempotent pg_id_eq db3 _ "1" ann rename _
           H1 H2 H3 H4 eq_refl).
Defined.

(** ** Uniqueness of keys and emails *)

Lemma replace_pk_split (rows : list User) (user u' : User) :
  NoDup (map ID rows) -> In user rows -> ID u' = ID user ->
  exists l1 l2, rows = l1 ++ user :: l2 /\
                replace_pk u' rows = l1 ++ u' :: l2.
Proof.
  intros Hnd Hin Hid. destruct (in_split _ _ Hin) as (l1 & l2 & ->).
  exists l1, l2. split; [reflexivity|].
  rewrite map_app in Hnd. cbn [map] in Hnd.
  pose proof (NoDup_remove_2 _ _ _ Hnd) as Hfresh.
  assert (Hkeep : forall l, (forall r, In r l -> In (ID r) (map ID l1 ++ map ID l2)) ->
                            replace_pk u' l = l).
  { intros l Hl. unfold replace_pk. rewrite <- (map_id l) at 2.
    apply map_ext_in. intros r Hr.
    destruct (Z.eqb_spec (ID r) (ID u')) as [E|E]; [|reflexivity].
    elim Hfresh. rewrite <- Hid, <- E. auto. }
  unfold replace_pk in *. rewrite map_app. cbn [map].
  rewrite Hid, Z.eqb_refl.
  rewrite <- Hid.
  rewrite (Hkeep l1), (Hkeep l2); [reflexivity| |];
    intros r Hr; apply in_or_app; [right|left]; apply in_map; exact Hr.
Qed.

Lemma NoDup_replace {A} (l1 l2 : list A) (a b : A) :
  NoDup (l1 ++ a :: l2) -> (b = a \/ ~ In b (l1 ++ l2)) ->
  NoDup (l1 ++ b :: l2).
Proof.
  intros Hnd [->|Hb]; [exact Hnd|].
  apply (NoDup_Add (Add_app b l1 l2)). split; [|exact Hb].
  exact (NoDup_remove_1 _ _ _ Hnd).
Qed.

(** ** [UpdateUser] on a storage whose health changes during the call *)

Lemma UpdateUserAcross_steady (sql_id_eq : string -> Z -> bool) (db : DB)
    (userID : string) (patch : User) :
  UpdateUserAcross sql_id_eq (health db) (health db) db userID patch
  = UpdateUser sql_id_eq db userID patch.
Proof. destruct db as [rows h]. reflexivity. Qed.

Lemma applyUserUpdates_new_email (db : DB) (user patch merged : User) :
  (forall e, health db <> StatementFails e) ->
  applyUserUpdates db user patch = (merged, None) ->
  Email merged <> Email user ->
  forall r, In r (users db) -> Email r <> Email merged.
Proof.
  intros Hh Ha Hnew. revert Ha. unfold applyUserUpdates.
  destruct (negb (Email patch =? "")%string
            && negb (Email patch =? Email user)%string).
  - unfold First.
    destruct (health db) as [|e|e] eqn:Hdb; [|elim (Hh e); reflexivity|];
      (destruct (first_by_pk (email_is (Email patch)) (users db)) as [x|] eqn:Hx;
       [discriminate|]); simpl; intros [= <-];
      destruct (copyOtherFields_fields (set_Email user (Email patch)) patch)
        as (_ & E & _);
      rewrite E; simpl; intros r Hr;
      rewrite first_by_pk_none in Hx; specialize (Hx r Hr);
      unfold email_is in Hx; apply String.eqb_neq in Hx; exact Hx.
  - intros [= <-].
    destruct (copyOtherFields_fields user patch) as (_ & E & _).
    contradiction.
Qed.

Lemma UpdateUserAcross_success_inv (sql_id_eq : string -> Z -> bool)
    (hq hs : Health) (db db' : DB) (userID : string)
    (user patch updated : User) :
  fetchUser sql_id_eq db userID = (Some user, None) ->
  ID user <> 0 ->
  UpdateUserAcross sql_id_eq hq hs db userID patch = (Some updated, None, db') ->
  applyUserUpdates (at_health hq db) user patch = (updated, None) /\
  ID updated = ID user /\
  db' = {| users := replace_pk updated (users db); health := hs |}.
Proof.
  intros Hf Hid Hok.
  destruct (fetchUser_some _ _ _ _ _ Hf) as (_ & Hin & _).
  unfold UpdateUserAcross in Hok. rewrite Hf in Hok.
  destruct (applyUserUpdates (at_health hq db) user patch)
    as [merged [e|]] eqn:Ha; [discriminate|].
  pose proof (proj1 (applyUserUpdates_same_key (at_health hq db) user patch))
    as Hk.
  rewrite Ha in Hk. simpl in Hk.
  assert (Hnz : (ID merged =? 0) = false) by (apply Z.eqb_neq; congruence).
  assert (Hpk : has_pk (ID merged) (users db) = true)
    by (rewrite Hk; apply has_pk_stored; exact Hin).
  revert Hok. unfold saveUser, Save, at_health. cbn [health users].
  destruct hs; try discriminate; rewrite Hnz, Hpk; simpl;
    intros [= <- <-]; auto.
Qed.

Lemma UpdateUserAcross_query_failed (sql_id_eq : string -> Z -> bool)
    (db : DB) (userID : string) (user patch : User) (e : gormerr.Error) :
  fetchUser sql_id_eq db userID = (Some user, None) ->
  Email patch <> "" -> Email patch <> Email user -> ID user <> 0 ->
  let merged := copyOtherFields (set_Email user (Email patch)) patch in
  UpdateUserAcross sql_id_eq (StatementFails e) Healthy db userID patch
  = (Some merged, None,
     {| users := replace_pk merged (users db); health := Healthy |}) /\
  Email merged = Email patch /\ ID merged = ID user.
Proof.
  intros Hf Hne Hdiff Hid merged.
  destruct (fetchUser_some _ _ _ _ _ Hf) as (_ & Hin & _).
  destruct (copyOtherFields_fields (set_Email user (Email patch)) patch)
    as (Hk & Hmail & _).
  fold merged in Hk, Hmail. simpl in Hk, Hmail.
  split; [|auto].
  unfold UpdateUserAcross. rewrite Hf.
  unfold applyUserUpdates, First, at_health. cbn [health users].
  apply String.eqb_neq in Hne. apply String.eqb_neq in Hdiff.
  rewrite Hne, Hdiff. simpl. fold merged.
  unfold saveUser.
  rewrite (Save_existing {| users := users db; health := Healthy |} merged);
    [reflexivity|reflexivity| |congruence].
  cbn [users]. rewrite Hk. apply has_pk_stored. exact Hin.
Qed.

(** C5: the uniqueness query is trusted by its [RowsAffected] alone, its
    error is never read.  When that one statement fails while the fetch
    and the save are served, [UpdateUser] reports no conflict although a
    live user holds the email: it succeeds and stores the email on the
    target, next to the row that already holds it. *)
Theorem UpdateUser_conflict_missed_on_failed_query
    (sql_id_eq : string -> Z -> bool) (db : DB) (userID : string)
    (user patch other : User) (e : gormerr.Error)
    (Hfetch : fetchUser sql_id_eq db userID = (Some user, None))
    (Hnonempty : Email patch <> "")
    (Hdiffers : Email patch <> Email user)
    (Hother : In other (users db))
    (Hheld : Email other = Email patch)
    (Hlive : time.IsZero (DeletedAt other) = true)
    (Hkeys : NoDup (map ID (users db)))
    (Hkey : ID user <> 0) :
  let merged := copyOtherFields (set_Email user (Email patch)) patch in
  let db' := {| users := replace_pk merged (users db); health := Healthy |} in
  UpdateUserAcross sql_id_eq (StatementFails e) Healthy db userID patch
  = (Some merged, None, db') /\
  Email merged = Email patch /\
  In merged (users db') /\ In other (users db') /\ other <> merged.
Proof.
  intros merged db'.
  destruct (fetchUser_some _ _ _ _ _ Hfetch) as (_ & Hin & _).
  destruct (UpdateUserAcross_query_failed sql_id_eq db userID user patch e
              Hfetch Hnonempty Hdiffers Hkey) as (Hrun & Hmail & Hid).
  fold merged in Hrun, Hmail, Hid. fold db' in Hrun.
  assert (Hne : ID other <> ID user).
  { intros E. apply Hdiffers. rewrite <- Hheld.
    f_equal. apply (same_pk_same_row (users db)); auto. }
  repeat split; auto.
  - apply (replace_pk_has merged user); auto.
  - apply replace_pk_other; congruence.
  - intros E. apply Hne. rewrite E. exact Hid.
Qed.

Lemma UpdateUser_conflict_missed_on_failed_query_witness :
  fetchUser pg_id_eq db3 "1" = (Some ann, None) /\
  Email taken <> "" /\ Email taken <> Email ann /\
  In bob (users db3) /\ Email bob = Email taken /\
  time.IsZero (DeletedAt bob) = true /\
  NoDup (map ID (users db3)) /\ ID ann <> 0 /\
  UpdateUserAcross pg_id_eq (StatementFails timedOut) Healthy db3 "1" taken
  = (Some annAsBob, None,
     {| users := [annAsBob; bob; cid]; health := Healthy |}) /\
  Email annAsBob = Email bob.
Proof.
  assert (H1 : fetchUser pg_id_eq db3 "1" = (Some ann, None)) by reflexivity.
  assert (H2 : Email taken <> "") by discriminate.
  assert (H3 : Email taken <> Email ann) by discriminate.
  assert (H4 : In bob (users db3)) by (simpl; auto).
  assert (H5 : Email bob = Email taken) by reflexivity.
  assert (H6 : time.IsZero (DeletedAt bob) = true) by reflexivity.
  assert (H7 : NoDup (map ID (users db3))).
  { simpl. repeat constructor; simpl; intuition discriminate. }
  assert (H8 : ID ann <> 0) by discriminate.
  repeat (split; [assumption|]).
  split; [|reflexivity].
  exact (proj1 (UpdateUser_conflict_missed_on_failed_query pg_id_eq db3 "1"
                  ann taken bob timedOut H1 H2 H3 H4 H5 H6 H7 H8)).
Defined.

(** C10: the same unread error decides the case of an email that only
    soft-deleted users hold.  When the uniqueness query fails while the
    fetch and the save are served, [UpdateUser] does not fail with the
    conflict error: it accepts the email and stores it on the target. *)
Theorem UpdateUser_soft_deleted_conflict_missed_on_failed_query
    (sql_id_eq : string -> Z -> bool) (db : DB) (userID : string)
    (user patch other : User) (e : gormerr.Error)
    (Hfetch : fetchUser sql_id_eq db userID = (Some user, None))
    (Hnonempty : Email patch <> "")
    (Hdiffers : Email patch <> Email user)
    (Hother : In other (users db))
    (Hheld : Email other = Email patch)
    (Honly : forall r, In r (users db) -> Email r = Email patch ->
                       time.IsZero (DeletedAt r) = false)
    (Hkey : ID user <> 0) :
  let merged := copyOtherFields (set_Email user (Email patch)) patch in
  let db' := {| users := replace_pk merged (users db); health := Healthy |} in
  UpdateUserAcross sql_id_eq (StatementFails e) Healthy db userID patch
  = (Some merged, None, db') /\
  snd (fst (UpdateUserAcross sql_id_eq (StatementFails e) Healthy db userID
              patch)) <> emailOccupied /\
  Email merged = Email patch /\ In merged (users db').
Proof.
  intros merged db'.
  destruct (fetchUser_some _ _ _ _ _ Hfetch) as (_ & Hin & _).
  destruct (UpdateUserAcross_query_failed sql_id_eq db userID user patch e
              Hfetch Hnonempty Hdiffers Hkey) as (Hrun & Hmail & Hid).
  fold merged in Hrun, Hmail, Hid. fold db' in Hrun.
  split; [exact Hrun|]. split; [rewrite Hrun; discriminate|].
  split; [exact Hmail|].
  apply (replace_pk_has merged user); auto.
Qed.

Lemma UpdateUser_soft_deleted_conflict_missed_on_failed_query_witness :
  fetchUser pg_id_eq db3 "1" = (Some ann, None) /\
  Email reuse <> "" /\ Email reuse <> Email ann /\
  In cid (users db3) /\ Email cid = Email reuse /\
  (forall r, In r (users db3) -> Email r = Email reuse ->
             time.IsZero (DeletedAt r) = false) /\
  ID ann <> 0 /\
  UpdateUserAcross pg_id_eq (StatementFails timedOut) Healthy db3 "1" reuse
  = (Some annAsCid, None,
     {| users := [annAsCid; bob; cid]; health := Healthy |}).
Proof.
  assert (H1 : fetchUser pg_id_eq db3 "1" = (Some ann, None)) by reflexivity.
  assert (H2 : Email reuse <> "") by discriminate.
  assert (H3 : Email reuse <> Email ann) by discriminate.
  assert (H4 : In cid (users db3)) by (simpl; auto).
  assert (H5 : Email cid = Email reuse) by reflexivity.
  assert (H6 : forall r, In r (users db3) -> Email r = Email reuse ->
                         time.IsZero (DeletedAt r) = false).
  { intros r [<-|[<-|[<-|[]]]]; simpl; intros E;
      first [discriminate E | reflexivity]. }
  assert (H7 : ID ann <> 0) by discriminate.
  repeat (split; [assumption|]).
  exact (proj1 (UpdateUser_soft_deleted_conflict_missed_on_failed_query
                  pg_id_eq db3 "1" ann reuse cid timedOut
                  H1 H2 H3 H4 H5 H6 H7)).
Defined.

(** When the uniqueness query is answered, whatever the health at the
    fetch allowed and whatever it is at the save, the conflict is found
    and nothing is written. *)
Lemma UpdateUserAcross_conflict (sql_id_eq : string -> Z -> bool)
    (hq hs : Health) (db : DB) (userID : string) (user patch other : User) :
  fetchUser sql_id_eq db userID = (Some user, None) ->
  (forall e, hq <> StatementFails e) ->
  Email patch <> "" -> Email patch <> Email user ->
  In other (users db) -> Email other = Email patch ->
  UpdateUserAcross sql_id_eq hq hs db userID patch = (None, emailOccupied, db).
Proof.
  intros Hf Hq Hne Hdiff Hin Hmail.
  unfold UpdateUserAcross. rewrite Hf.
  assert (Ha : applyUserUpdates (at_health hq db) user patch
               = (user, emailOccupied)).
  { unfold applyUserUpdates, First, at_health. cbn [health users].
    apply String.eqb_neq in Hne. apply String.eqb_neq in Hdiff.
    rewrite Hne, Hdiff. simpl.
    destruct (first_by_pk_found (email_is (Email patch)) (users db) other Hin)
      as [u Hu].
    { unfold email_is. rewrite Hmail. apply String.eqb_refl. }
    rewrite Hu. destruct hq as [|e|e]; [reflexivity|elim (Hq e); reflexivity|
                                        reflexivity]. }
  rewrite Ha. reflexivity.
Qed.

(** X8: a successful update whose uniqueness query was answered keeps the
    table well-formed, whatever the health of the storage at the query and
    at the save: the primary keys stay unique and, among the non-deleted
    users, so do the emails. *)
Theorem UpdateUser_keeps_uniqueness (sql_id_eq : string -> Z -> bool)
    (hq hs : Health) (db db' : DB) (userID : string)
    (user patch updated : User)
    (Hfetch : fetchUser sql_id_eq db userID = (Some user, None))
    (Hkey : ID user <> 0)
    (Hkeys : NoDup (map ID (users db)))
    (Hmails : NoDup (map Email (liveRows db)))
    (Hanswered : forall e, hq <> StatementFails e)
    (Hok : UpdateUserAcross sql_id_eq hq hs db userID patch
           = (Some updated, None, db')) :
  NoDup (map ID (users db')) /\ NoDup (map Email (liveRows db')).
Proof.
  destruct (fetchUser_some _ _ _ _ _ Hfetch) as (Hh & Hin & _ & Hlive & _).
  destruct (UpdateUserAcross_success_inv _ _ _ _ _ _ _ _ _ Hfetch Hkey Hok)
    as (Ha & Hid & ->).
  split; [cbn [users]; rewrite replace_pk_keys; exact Hkeys|].
  destruct (replace_pk_split _ user updated Hkeys Hin Hid)
    as (l1 & l2 & Hrows & Hrows').
  unfold liveRows in *. cbn [users]. rewrite Hrows'. rewrite Hrows in Hmails.
  rewrite filter_app in *. cbn [filter] in *. rewrite Hlive in Hmails.
  rewrite map_app in *. cbn [map] in Hmails.
  destruct (not_deleted updated); cbn [map].
  - apply (NoDup_replace _ _ (Email user)); [exact Hmails|].
    destruct (string_dec (Email updated) (Email user)) as [E|E]; [auto|right].
    pose proof (applyUserUpdates_new_email (at_health hq db) user patch updated
                  Hanswered Ha E) as Hfree.
    intros Hb. apply in_app_or in Hb.
    assert (Hsub : forall l, (forall r, In r l -> In r (users db)) ->
                             ~ In (Email updated) (map Email (filter not_deleted l))).
    { intros l Hl Hc. apply in_map_iff in Hc as (r & Hr & Hrl).
      apply filter_In in Hrl as [Hrl _]. exact (Hfree r (Hl r Hrl) Hr). }
    destruct Hb as [Hb|Hb]; revert Hb; apply Hsub; intros r Hr; rewrite Hrows;
      apply in_or_app; [left|right; right]; exact Hr.
  - exact (NoDup_remove_1 _ _ _ Hmails).
Qed.

Lemma UpdateUser_keeps_uniqueness_witness :
  fetchUser pg_id_eq db3 "1" = (Some ann, None) /\ ID ann <> 0 /\
  NoDup (map ID (users db3)) /\ NoDup (map Email (liveRows db3)) /\
  (forall e, ScanFails timedOut <> StatementFails e) /\
  NoDup (map Email (liveRows
    (snd (UpdateUserAcross pg_id_eq (ScanFails timedOut) Healthy db3 "1"
            rename)))).
Proof.
  assert (H1 : fetchUser pg_id_eq db3 "1" = (Some ann, None)) by reflexivity.
  assert (H2 : ID ann <> 0) by discriminate.
  assert (H3 : NoDup (map ID (users db3))).
  { simpl. repeat constructor; simpl; intuition discriminate. }
  assert (H4 : NoDup (map Email (liveRows db3))).
  { simpl. repeat constructor; simpl; intuition discriminate. }
  assert (H5 : forall e, ScanFails timedOut <> StatementFails e)
    by discriminate.
  repeat (split; [assumption|]).
  exact (proj2 (UpdateUser_keeps_uniqueness pg_id_eq (ScanFails timedOut)
                  Healthy db3 _ "1" ann rename _ H1 H2 H3 H4 H5 eq_refl)).
Defined.

(** ** Pages and counts *)

Lemma limit_segment {A} (n : Z) (l : list A) :
  exists b, l = limit n l ++ b.
Proof.
  unfold limit. destruct (0 <=? n).
  - exists (skipn (Z.to_nat n) l). symmetry. apply firstn_skipn.
  - exists []. symmetry. apply app_nil_r.
Qed.

Lemma offset_segment {A} (n : Z) (l : list A) :
  exists a, l = a ++ offset n l.
Proof.
  unfold offset. destruct (0 <? n).
  - exists (firstn (Z.to_nat n) l). symmetry. apply firstn_skipn.
  - exists []. reflexivity.
Qed.

Lemma ListUsers_result (db : DB) (page pageSize : Z) :
  ListUsers db page pageSize
  = match storage_error (health db) with
    | None => (limit pageSize (offset (listOffset page pageSize) (liveRows db)),
               None)
    | Some e => ([], deletionFailed e)
    end.
Proof. unfold ListUsers, Find. destruct (health db); reflexivity. Qed.

Lemma ListUsers_segment (db : DB) (page pageSize : Z) :
  exists a b, liveRows db = a ++ fst (ListUsers db page pageSize) ++ b.
Proof.
  rewrite ListUsers_result. destruct (storage_error (health db)); simpl.
  - exists [], (liveRows db). reflexivity.
  - destruct (offset_segment (listOffset page pageSize) (liveRows db)) as [a Ha].
    destruct (limit_segment pageSize
                (offset (listOffset page pageSize) (liveRows db))) as [b Hb].
    exists a, b. rewrite <- Hb. exact Ha.
Qed.

Lemma ListUsers_sound (db : DB) (page pageSize : Z) (r : User) :
  In r (fst (ListUsers db page pageSize)) ->
  In r (users db) /\ not_deleted r = true.
Proof.
  intros Hr. destruct (ListUsers_segment db page pageSize) as (a & b & Hseg).
  apply filter_In. fold (liveRows db). rewrite Hseg.
  apply in_or_app. right. apply in_or_app. left. exact Hr.
Qed.

Lemma listOffset_wrapped (page pageSize : Z) :
  listOffset page pageSize = goint.wrap ((page - 1) * pageSize).
Proof.
  unfold listOffset, goint.mul, goint.sub, goint.wrap. f_equal.
  replace (((page - 1 + 2 ^ 63) mod 2 ^ 64 - 2 ^ 63) * pageSize + 2 ^ 63)
    with ((page - 1 + 2 ^ 63) mod 2 ^ 64 * pageSize
          + (2 ^ 63 - 2 ^ 63 * pageSize)) by ring.
  rewrite <- Z.add_mod_idemp_l by (compute; discriminate).
  rewrite Z.mul_mod_idemp_l by (compute; discriminate).
  rewrite Z.add_mod_idemp_l by (compute; discriminate).
  f_equal. ring.
Qed.

Lemma ListUsers_at_most (db : DB) (page pageSize : Z) :
  1 <= pageSize ->
  (List.length (fst (ListUsers db page pageSize)) <= Z.to_nat pageSize)%nat.
Proof.
  intros Hs. rewrite ListUsers_result.
  destruct (storage_error (health db)); simpl; [lia|].
  unfold limit. destruct (Z.leb_spec 0 pageSize); [|lia].
  rewrite length_firstn. lia.
Qed.

(** C9, as the code has it: for every page and page size of at least 1,
    [ListUsers] returns at most [pageSize] users, all of them non-deleted
    rows of the table, as a contiguous run of the non-deleted rows in the
    storage's natural order.  The offset of the query is
    [(page-1) * pageSize] computed in Go's [int], that is wrapped to 64
    bits: it is exactly [(page-1) * pageSize], and the result exactly the
    page that starts there, whenever the product fits an [int]; page 1 of
    10 starts at offset 0, page 2 of 10 at offset 10. *)
Theorem ListUsers_page (db : DB) (page pageSize : Z)
    (Hpage : 1 <= page) (Hsize : 1 <= pageSize) :
  (List.length (fst (ListUsers db page pageSize)) <= Z.to_nat pageSize)%nat /\
  (forall u, In u (fst (ListUsers db page pageSize)) ->
             In u (users db) /\ time.IsZero (DeletedAt u) = true) /\
  (exists a b, liveRows db = a ++ fst (ListUsers db page pageSize) ++ b) /\
  listOffset page pageSize = goint.wrap ((page - 1) * pageSize) /\
  ((page - 1) * pageSize <= goint.MaxInt ->
   listOffset page pageSize = (page - 1) * pageSize /\
   ListUsers db page pageSize
   = match storage_error (health db) with
     | None => (pageOf page pageSize (filter not_deleted (users db)), None)
     | Some e => ([], deletionFailed e)
     end) /\
  listOffset 1 10 = 0 /\ listOffset 2 10 = 10.
Proof.
  split; [apply ListUsers_at_most; exact Hsize|].
  split; [apply ListUsers_sound|].
  split; [apply ListUsers_segment|].
  split; [apply listOffset_wrapped|].
  split; [|split; reflexivity].
  intros Hfits.
  pose proof (listOffset_exact page pageSize Hpage Hsize Hfits) as Hoff.
  split; [exact Hoff|].
  rewrite ListUsers_result, Hoff.
  destruct (storage_error (health db)); [reflexivity|].
  rewrite limit_offset_page by nia. reflexivity.
Qed.

Lemma ListUsers_page_witness :
  1 <= 2 /\ 1 <= 1 /\ (2 - 1) * 1 <= goint.MaxInt /\
  (List.length (fst (ListUsers db3 2 1)) <= 1)%nat /\
  listOffset 2 1 = 1 /\ ListUsers db3 2 1 = ([bob], None).
Proof.
  assert (H1 : 1 <= 2) by lia.
  assert (H2 : 1 <= 1) by lia.
  assert (H3 : (2 - 1) * 1 <= goint.MaxInt) by (vm_compute; discriminate).
  repeat (split; [assumption|]).
  destruct (ListUsers_page db3 2 1 H1 H2) as (Hlen & _ & _ & _ & Hexact & _).
  destruct (Hexact H3) as [Ha Hb].
  split; [exact Hlen|]. split; [exact Ha | exact Hb].
Defined.

(** X9: for every page and page size, in range or not, what [ListUsers]
    returns is a contiguous run of the non-deleted rows in the storage's
    order: nothing deleted, nothing reordered, nothing skipped inside the
    run; and with an error it returns no rows. *)
Theorem ListUsers_contiguous_live (db : DB) (page pageSize : Z) :
  (exists a b, liveRows db = a ++ fst (ListUsers db page pageSize) ++ b) /\
  (forall r, In r (fst (ListUsers db page pageSize)) ->
             In r (users db) /\ time.IsZero (DeletedAt r) = true) /\
  (snd (ListUsers db page pageSize) <> None ->
   fst (ListUsers db page pageSize) = []).
Proof.
  split; [apply ListUsers_segment|]. split; [apply ListUsers_sound|].
  rewrite ListUsers_result. destruct (storage_error (health db)); simpl;
    congruence.
Qed.

Lemma firstn_plus {A} (a b : nat) (l : list A) :
  firstn (a + b) l = firstn a l ++ firstn b (skipn a l).
Proof.
  revert l. induction a as [|a IH]; intros [|x l]; simpl;
    try rewrite firstn_nil; try reflexivity.
  rewrite IH. reflexivity.
Qed.

Lemma ListUsers_healthy_page (db : DB) (page pageSize : Z) :
  health db = Healthy -> 1 <= page -> 1 <= pageSize ->
  (page - 1) * pageSize <= goint.MaxInt ->
  fst (ListUsers db page pageSize) = pageOf page pageSize (liveRows db).
Proof.
  intros Hh Hp Hs Hfit. rewrite ListUsers_result, Hh. simpl.
  rewrite (listOffset_exact page pageSize Hp Hs Hfit).
  rewrite limit_offset_page by nia. reflexivity.
Qed.

Lemma pagesUpTo_prefix (db : DB) (pageSize : Z) (n : nat) :
  health db = Healthy -> 1 <= pageSize ->
  Z.of_nat n * pageSize <= goint.MaxInt ->
  pagesUpTo db n pageSize
  = firstn (n * Z.to_nat pageSize) (liveRows db).
Proof.
  intros Hh Hs. unfold pagesUpTo. induction n as [|n IH]; intros Hfit.
  - reflexivity.
  - rewrite seq_S, flat_map_app. cbn [flat_map]. rewrite app_nil_r.
    rewrite IH by nia.
    rewrite ListUsers_healthy_page by (try assumption; nia).
    unfold pageOf.
    replace (Z.to_nat ((Z.of_nat (1 + n) - 1) * pageSize))
      with (n * Z.to_nat pageSize)%nat by nia.
    replace (S n * Z.to_nat pageSize)%nat
      with (n * Z.to_nat pageSize + Z.to_nat pageSize)%nat by lia.
    symmetry. apply firstn_plus.
Qed.

(** X10: on a healthy storage, reading pages 1, 2, ..., n of the same size
    one after the other yields exactly the first [n * pageSize]
    non-deleted users, in order: consecutive pages neither overlap nor
    leave a gap (as long as [n * pageSize] fits an [int]). *)
Theorem ListUsers_pages_tile (db : DB) (pageSize : Z) (n : nat)
    (Hhealthy : health db = Healthy)
    (Hsize : 1 <= pageSize)
    (Hfits : Z.of_nat n * pageSize <= goint.MaxInt) :
  pagesUpTo db n pageSize = firstn (n * Z.to_nat pageSize) (liveRows db).
Proof. exact (pagesUpTo_prefix db pageSize n Hhealthy Hsize Hfits). Qed.

Lemma ListUsers_pages_tile_witness :
  health db3 = Healthy /\ 1 <= 1 /\ Z.of_nat 2 * 1 <= goint.MaxInt /\
  pagesUpTo db3 2 1 = [ann; bob].
Proof.
  assert (H1 : health db3 = Healthy) by reflexivity.
  assert (H2 : 1 <= 1) by lia.
  assert (H3 : Z.of_nat 2 * 1 <= goint.MaxInt) by (vm_compute; discriminate).
  repeat (split; [assumption|]).
  exact (ListUsers_pages_tile db3 1 2 H1 H2 H3).
Defined.

(** X11: a first page that is at least as long as the number of
    non-deleted users lists all of them, and [CountUsers] is the length of
    that page. *)
Theorem ListUsers_all_and_count (db : DB) (pageSize : Z)
    (Hhealthy : health db = Healthy)
    (Hsize : 1 <= pageSize)
    (Hall : Z.of_nat (List.length (liveRows db)) <= pageSize) :
  ListUsers db 1 pageSize = (liveRows db, None) /\
  CountUsers db
  = (Z.of_nat (List.length (fst (ListUsers db 1 pageSize))), None).
Proof.
  assert (H : ListUsers db 1 pageSize = (liveRows db, None)).
  { rewrite ListUsers_result, Hhealthy. simpl.
    rewrite (listOffset_exact 1 pageSize) by (unfold goint.MaxInt; lia).
    rewrite limit_offset_page by lia. simpl.
    rewrite firstn_all2 by lia. reflexivity. }
  split; [exact H|]. rewrite H. unfold CountUsers, Count. rewrite Hhealthy.
  reflexivity.
Qed.

Lemma ListUsers_all_and_count_witness :
  health db3 = Healthy /\ 1 <= 10 /\
  Z.of_nat (List.length (liveRows db3)) <= 10 /\
  ListUsers db3 1 10 = ([ann; bob], None) /\ CountUsers db3 = (2, None).
Proof.
  assert (H1 : health db3 = Healthy) by reflexivity.
  assert (H2 : 1 <= 10) by lia.
  assert (H3 : Z.of_nat (List.length (liveRows db3)) <= 10)
    by (vm_compute; discriminate).
  repeat (split; [assumption|]).
  exact (ListUsers_all_and_count db3 10 H1 H2 H3).
Defined.

(** X12: a page number below 1 is not rejected: its offset is not
    positive, no OFFSET clause is emitted, and the call returns what page 1
    returns (as long as the offset does not leave the range of [int]). *)
Theorem ListUsers_page_below_one (db : DB) (page pageSize : Z)
    (Hpage : page <= 1) (Hsize : 1 <= pageSize)
    (Hfits : goint.MinInt <= (page - 1) * pageSize) :
  ListUsers db page pageSize = ListUsers db 1 pageSize.
Proof.
  rewrite !ListUsers_result.
  assert (Hoff : listOffset page pageSize = (page - 1) * pageSize).
  { unfold listOffset, goint.mul, goint.sub.
    unfold goint.MinInt in Hfits.
    rewrite (wrap_small (page - 1)), wrap_small; auto;
      unfold goint.in_range, goint.MinInt, goint.MaxInt; nia. }
  assert (H1 : listOffset 1 pageSize = 0).
  { apply listOffset_exact; unfold goint.MaxInt; lia. }
  rewrite Hoff, H1. unfold offset.
  destruct (Z.ltb_spec 0 ((page - 1) * pageSize)); [nia|]. reflexivity.
Qed.

Lemma ListUsers_page_below_one_witness :
  -3 <= 1 /\ 1 <= 1 /\ goint.MinInt <= (-3 - 1) * 1 /\
  ListUsers db3 (-3) 1 = ([ann], None).
Proof.
  assert (H1 : -3 <= 1) by lia.
  assert (H2 : 1 <= 1) by lia.
  assert (H3 : goint.MinInt <= (-3 - 1) * 1) by (vm_compute; discriminate).
  repeat (split; [assumption|]).
  exact (ListUsers_page_below_one db3 (-3) 1 H1 H2 H3).
Defined.

(** ** What a soft deletion changes for the other operations *)

Lemma GetUserByID_only (d : DB) (u : User) :
  health d = Healthy -> In u (users d) ->
  (forall r, In r (users d) -> ID r = ID u -> r = u) ->
  GetUserByID d (ID u) = (Some u, None).
Proof.
  intros Hh Hin Honly. unfold GetUserByID.
  rewrite (First_healthy_found d _ u Hh); [reflexivity|].
  apply first_by_pk_only; auto using Z.eqb_refl.
  intros r Hr Hc. apply Z.eqb_eq in Hc. auto.
Qed.

(** X13: after a successful [DeleteUser] the user is gone for [GetUser]
    and for every page of [ListUsers], but [GetUserByID], which does not
    filter on [deleted_at], still returns it, with the deletion time. *)
Theorem DeleteUser_visibility (sql_id_eq : string -> Z -> bool) (db : DB)
    (now : time.Time) (userID : string) (user : User)
    (Hfetch : fetchUser sql_id_eq db userID = (Some user, None))
    (Hnow : time.IsZero now = false)
    (Hkey : ID user <> 0)
    (Hdesignates : forall i, sql_id_eq userID i = true -> i = ID user) :
  let db1 := snd (DeleteUser sql_id_eq db now userID) in
  GetUser sql_id_eq db1 userID = (None, noUserWithID) /\
  GetUserByID db1 (ID user) = (Some (set_DeletedAt user now), None) /\
  (forall page pageSize r, In r (fst (ListUsers db1 page pageSize)) ->
                           ID r <> ID user).
Proof.
  destruct (fetchUser_some _ _ _ _ _ Hfetch) as (Hh & Hin & _).
  rewrite (DeleteUser_first _ _ _ _ _ Hfetch Hnow Hkey). cbn [snd].
  set (deleted := set_DeletedAt user now).
  set (db1 := {| users := replace_pk deleted (users db); health := health db |}).
  assert (Hrows : forall r, In r (users db1) -> ID r = ID user -> r = deleted).
  { intros r Hr Hid. apply replace_pk_in in Hr as [->|[_ Hne]];
      [reflexivity | contradiction]. }
  assert (Hdel : In deleted (users db1)).
  { apply (replace_pk_has deleted user); auto. }
  split; [|split].
  - apply GetUser_no_live_match. intros r Hr Hm.
    rewrite (Hrows r Hr (Hdesignates _ Hm)). exact Hnow.
  - apply (GetUserByID_only db1 deleted); auto.
  - intros page pageSize r Hr Hid.
    apply ListUsers_sound in Hr as [Hr Hlive].
    rewrite (Hrows r Hr Hid) in Hlive. unfold not_deleted in Hlive.
    simpl in Hlive. congruence.
Qed.

Lemma DeleteUser_visibility_witness :
  fetchUser pg_id_eq db3 "1" = (Some ann, None) /\
  time.IsZero 1700000100 = false /\ ID ann <> 0 /\
  (forall i, pg_id_eq "1" i = true -> i = ID ann) /\
  GetUser pg_id_eq (snd (DeleteUser pg_id_eq db3 1700000100 "1")) "1"
  = (None, noUserWithID) /\
  GetUserByID (snd (DeleteUser pg_id_eq db3 1700000100 "1")) 1
  = (Some (set_DeletedAt ann 1700000100), None).
Proof.
  assert (H1 : fetchUser pg_id_eq db3 "1" = (Some ann, None)) by reflexivity.
  assert (H2 : time.IsZero 1700000100 = false) by reflexivity.
  assert (H3 : ID ann <> 0) by discriminate.
  assert (H4 : forall i, pg_id_eq "1" i = true -> i = ID ann).
  { intros i H. apply Z.eqb_eq in H. symmetry. exact H. }
  repeat (split; [assumption|]).
  destruct (DeleteUser_visibility pg_id_eq db3 1700000100 "1" ann H1 H2 H3 H4)
    as (Ha & Hb & _).
  split; [exact Ha | exact Hb].
Defined.

(** X14: on a table with unique keys, a successful [DeleteUser] lowers
    [CountUsers] by exactly one. *)
Theorem DeleteUser_lowers_count (sql_id_eq : string -> Z -> bool) (db : DB)
    (now : time.Time) (userID : string) (user : User)
    (Hfetch : fetchUser sql_id_eq db userID = (Some user, None))
    (Hnow : time.IsZero now = false)
    (Hkey : ID user <> 0)
    (Hkeys : NoDup (map ID (users db))) :
  CountUsers (snd (DeleteUser sql_id_eq db now userID))
  = (fst (CountUsers db) - 1, None).
Proof.
  destruct (fetchUser_some _ _ _ _ _ Hfetch) as (Hh & Hin & _ & Hlive & _).
  rewrite (DeleteUser_first _ _ _ _ _ Hfetch Hnow Hkey). cbn [snd].
  destruct (replace_pk_split _ user (set_DeletedAt user now) Hkeys Hin eq_refl)
    as (l1 & l2 & Hrows & Hrows').
  unfold CountUsers, Count. cbn [health users]. rewrite Hh, Hrows', Hrows.
  cbn [Error ok fst]. f_equal.
  rewrite !filter_app. cbn [filter]. rewrite Hlive.
  unfold not_deleted at 2. cbn [DeletedAt set_DeletedAt]. rewrite Hnow.
  rewrite !length_app. cbn [List.length]. lia.
Qed.

Lemma DeleteUser_lowers_count_witness :
  fetchUser pg_id_eq db3 "1" = (Some ann, None) /\
  time.IsZero 1700000100 = false /\ ID ann <> 0 /\
  NoDup (map ID (users db3)) /\
  CountUsers db3 = (2, None) /\
  CountUsers (snd (DeleteUser pg_id_eq db3 1700000100 "1")) = (1, None).
Proof.
  assert (H1 : fetchUser pg_id_eq db3 "1" = (Some ann, None)) by reflexivity.
  assert (H2 : time.IsZero 1700000100 = false) by reflexivity.
  assert (H3 : ID ann <> 0) by discriminate.
  assert (H4 : NoDup (map ID (users db3))).
  { simpl. repeat constructor; simpl; intuition discriminate. }
  repeat (split; [assumption|]).
  split; [reflexivity|].
  exact (DeleteUser_lowers_count pg_id_eq db3 1700000100 "1" ann H1 H2 H3 H4).
Defined.

(** ** Lookups by email and by key *)

(** X15: a user that [GetUserByEmail] returns comes without an error, is a
    row of the table, holds exactly the requested email and is not
    soft-deleted. *)
Theorem GetUserByEmail_sound (db : DB) (email : string) (u : User)
    (e : option error)
    (Hok : GetUserByEmail db email = (Some u, e)) :
  e = None /\ In u (users db) /\ Email u = email /\
  time.IsZero (DeletedAt u) = true.
Proof.
  revert Hok. unfold GetUserByEmail.
  destruct (First db (email_and_not_deleted email)) as [[[g|] n] x] eqn:E; simpl.
  - destruct (n =? 0); discriminate.
  - intros [= <- <-]. apply First_ok in E as [_ E].
    apply first_by_pk_some in E as [Hin Hc].
    unfold email_and_not_deleted, email_is in Hc.
    apply andb_true_iff in Hc as [Hm Hl]. apply String.eqb_eq in Hm. auto.
Qed.

Lemma GetUserByEmail_sound_witness :
  GetUserByEmail db3 "bob@example.com" = (Some bob, None) /\
  In bob (users db3) /\ Email bob = "bob@example.com" /\
  time.IsZero (DeletedAt bob) = true.
Proof.
  assert (H : GetUserByEmail db3 "bob@example.com" = (Some bob, None))
    by reflexivity.
  split; [exact H|].
  exact (proj2 (GetUserByEmail_sound db3 "bob@example.com" bob None H)).
Defined.

(** X16: on a healthy storage, the one non-deleted user that holds an
    email is what [GetUserByEmail] returns for it, whatever soft-deleted
    rows hold the same email. *)
Theorem GetUserByEmail_complete (db : DB) (u : User)
    (Hhealthy : health db = Healthy)
    (Hin : In u (users db))
    (Hlive : time.IsZero (DeletedAt u) = true)
    (Honly : forall r, In r (users db) -> Email r = Email u ->
                       time.IsZero (DeletedAt r) = true -> r = u) :
  GetUserByEmail db (Email u) = (Some u, None).
Proof.
  unfold GetUserByEmail.
  rewrite (First_healthy_found db _ u Hhealthy); [reflexivity|].
  apply first_by_pk_only; auto.
  - unfold email_and_not_deleted, email_is. rewrite String.eqb_refl. exact Hlive.
  - intros r Hr Hc. unfold email_and_not_deleted, email_is in Hc.
    apply andb_true_iff in Hc as [Hm Hl]. apply String.eqb_eq in Hm. auto.
Qed.

Lemma GetUserByEmail_complete_witness :
  health db3dup = Healthy /\ In bob (users db3dup) /\
  time.IsZero (DeletedAt bob) = true /\
  (forall r, In r (users db3dup) -> Email r = Email bob ->
             time.IsZero (DeletedAt r) = true -> r = bob) /\
  GetUserByEmail db3dup "bob@example.com" = (Some bob, None).
Proof.
  assert (H1 : health db3dup = Healthy) by reflexivity.
  assert (H2 : In bob (users db3dup)) by (simpl; auto).
  assert (H3 : time.IsZero (DeletedAt bob) = true) by reflexivity.
  assert (H4 : forall r, In r (users db3dup) -> Email r = Email bob ->
                         time.IsZero (DeletedAt r) = true -> r = bob).
  { intros r [<-|[<-|[<-|[]]]]; simpl; intros E L;
      first [discriminate E | discriminate L | reflexivity]. }
  repeat (split; [assumption|]).
  exact (GetUserByEmail_complete db3dup bob H1 H2 H3 H4).
Defined.

(** X17: on a healthy storage with unique keys, [GetUserByID] is the
    lookup of the key in the table, soft-deleted rows included: it returns
    the row that has the key, and [NoRecordFound] when no row has it. *)
Theorem GetUserByID_by_key (d : DB) (userID : Z)
    (Hhealthy : health d = Healthy)
    (Hkeys : NoDup (map ID (users d))) :
  GetUserByID d userID
  = match find (fun r => ID r =? userID) (users d) with
    | Some u => (Some u, None)
    | None => (None, userNotFound)
    end.
Proof.
  destruct (find (fun r => ID r =? userID) (users d)) as [u|] eqn:Hf.
  - apply find_some in Hf as [Hin Hc]. apply Z.eqb_eq in Hc. subst userID.
    apply GetUserByID_only; auto.
    intros r Hr Hid. apply (same_pk_same_row (users d)); auto.
  - unfold GetUserByID, First. rewrite Hhealthy.
    replace (first_by_pk (fun r => ID r =? userID) (users d)) with (@None User);
      [reflexivity|].
    symmetry. apply first_by_pk_none. intros r Hr.
    exact (find_none _ _ Hf r Hr).
Qed.

Lemma GetUserByID_by_key_witness :
  health db3 = Healthy /\ NoDup (map ID (users db3)) /\
  GetUserByID db3 3 = (Some cid, None) /\
  GetUserByID db3 7 = (None, userNotFound).
Proof.
  assert (H1 : health db3 = Healthy) by reflexivity.
  assert (H2 : NoDup (map ID (users db3))).
  { simpl. repeat constructor; simpl; intuition discriminate. }
  repeat (split; [assumption|]).
  split.
  - exact (GetUserByID_by_key db3 3 H1 H2).
  - exact (GetUserByID_by_key db3 7 H1 H2).
Defined.

(** X18: when the statement itself fails, whatever the error and whatever
    the table holds, [GetUser] reports [NoRecordFound], and [UpdateUser]
    and [DeleteUser] fail the same way without writing; the
    [DeletionFailed] answer of the lookup is given only for an error that
    arrives with a scanned row. *)
Theorem statement_failure_reported_as_not_found
    (sql_id_eq : string -> Z -> bool) (rows : list User) (e : gormerr.Error)
    (userID : string) (patch : User) (now : time.Time) :
  let down := {| users := rows; health := StatementFails e |} in
  GetUser sql_id_eq down userID = (None, noUserWithID) /\
  UpdateUser sql_id_eq down userID patch = (None, noUserWithID, down) /\
  DeleteUser sql_id_eq down now userID = (None, noUserWithID, down) /\
  (forall db a, GetUser sql_id_eq db userID = (None, Some (AppErr a)) ->
     apperrors.Code a = apperrors.CodeDeletionFailed ->
     exists e' u, health db = ScanFails e' /\
       first_by_pk (id_and_not_deleted sql_id_eq userID) (users db) = Some u).
Proof.
  repeat split.
  intros db a. unfold GetUser, First.
  destruct (health db) as [|e'|e'];
    destruct (first_by_pk (id_and_not_deleted sql_id_eq userID) (users db))
      as [u|]; simpl; intros [= <-]; simpl; try discriminate.
  intros _. eauto.
Qed.

Lemma statement_failure_reported_as_not_found_witness :
  GetUser pg_id_eq {| users := users db3;
                      health := StatementFails (gormerr.ErrOther "connection refused") |}
          "1"
  = (None, noUserWithID).
Proof.
  exact (proj1 (statement_failure_reported_as_not_found pg_id_eq (users db3)
                  (gormerr.ErrOther "connection refused") "1" rename 0)).
Defined.

(** ** [CreateUser] *)

Lemma fresh_pk_above (rows : list User) (r : User) :
  In r rows -> ID r < fresh_pk rows.
Proof.
  unfold fresh_pk. induction rows as [|x rest IH]; cbn [fold_right In];
    [tauto|].
  intros [<-|Hr]; [lia|]. specialize (IH Hr). lia.
Qed.

(** X19: [CreateUser] never reports a failure: it reads the error of the
    session, not of the insert, so its error is nil for every storage and
    every user; when the insert fails (the statement fails, or the key is
    taken) the table is unchanged and the caller still gets the user back
    with a nil error. *)
Theorem CreateUser_reports_no_failure (db : DB) (user : User) :
  snd (fst (CreateUser db user)) = None /\
  (Error (fst (fst (Create db user))) <> None ->
   CreateUser db user = (Some user, None, db)).
Proof.
  unfold CreateUser, Create.
  destruct (health db); simpl;
    try (destruct (ID user =? 0); [|destruct (has_pk (ID user) (users db))]);
    simpl; split; try reflexivity; intros H; try reflexivity;
    elim H; reflexivity.
Qed.

Lemma CreateUser_reports_no_failure_witness :
  Error (fst (fst (Create db3 bob))) <> None /\
  CreateUser db3 bob = (Some bob, None, db3).
Proof.
  assert (H : Error (fst (fst (Create db3 bob))) <> None) by discriminate.
  split; [exact H|].
  exact (proj2 (CreateUser_reports_no_failure db3 bob) H).
Defined.

(** X20: on a healthy storage with unique keys, creating a user that has
    no key yet appends one row, gives it a key that no row had, keeps the
    keys unique, and the created user is read back by [GetUserByID] under
    the key that [CreateUser] returned. *)
Theorem CreateUser_then_GetUserByID (db : DB) (user : User)
    (Hhealthy : health db = Healthy)
    (Hnew : ID user = 0)
    (Hkeys : NoDup (map ID (users db))) :
  let created := set_ID user (fresh_pk (users db)) in
  let db' := {| users := users db ++ [created]; health := health db |} in
  CreateUser db user = (Some created, None, db') /\
  ~ In (ID created) (map ID (users db)) /\
  NoDup (map ID (users db')) /\
  GetUserByID db' (ID created) = (Some created, None).
Proof.
  intros created db'.
  assert (Hfresh : ~ In (ID created) (map ID (users db))).
  { intros H. apply in_map_iff in H as (r & Hid & Hr).
    apply fresh_pk_above in Hr. unfold created in Hid. simpl in Hid. lia. }
  split; [|split; [exact Hfresh|split]].
  - unfold CreateUser, Create, db', created. rewrite Hhealthy, Hnew.
    reflexivity.
  - unfold db'. cbn [users]. rewrite map_app. cbn [map].
    apply (NoDup_Add (Add_app (ID created) (map ID (users db)) [])).
    rewrite app_nil_r. auto.
  - apply GetUserByID_only; auto.
    + unfold db'. cbn [users]. apply in_or_app. right. simpl. auto.
    + unfold db'. cbn [users]. intros r Hr Hid.
      apply in_app_or in Hr as [Hr|[<-|[]]]; [|reflexivity].
      elim Hfresh. rewrite <- Hid. apply in_map. exact Hr.
Qed.

Lemma CreateUser_then_GetUserByID_witness :
  health db3 = Healthy /\ ID dan = 0 /\ NoDup (map ID (users db3)) /\
  CreateUser db3 dan
  = (Some (set_ID dan 4), None,
     {| users := [ann; bob; cid; set_ID dan 4]; health := Healthy |}) /\
  GetUserByID (snd (CreateUser db3 dan)) 4 = (Some (set_ID dan 4), None).
Proof.
  assert (H1 : health db3 = Healthy) by reflexivity.
  assert (H2 : ID dan = 0) by reflexivity.
  assert (H3 : NoDup (map ID (users db3))).
  { simpl. repeat constructor; simpl; intuition discriminate. }
  repeat (split; [assumption|]).
  destruct (CreateUser_then_GetUserByID db3 dan H1 H2 H3) as (Ha & _ & _ & Hd).
  split; [exact Ha | exact Hd].
Defined.
